(** * Telegram transfer service: ownership-transfer orchestration

    A shallow embedding of the escrow service's request handlers and of the
    five platform operations they sequence (join, ownership check, admin
    revocation, creator handoff, leave), together with the properties of the
    orchestration that the specification states.

    The remote platform is a deterministic transition system over an
    arbitrary world type; every call the service makes on its client is
    recorded, with its outcome, in the log of the run.  JavaScript exceptions
    are the right injection of a sum; [try]/[catch]/[finally] are combinators
    of a small state-and-error monad. *)

From Stdlib Require Import ZArith List String Ascii Bool.
From Stdlib Require Import DecimalString DecimalZ.
Import ListNotations.
Open Scope string_scope.

Set Implicit Arguments.
Set Warnings "-register-all".

(** ** JavaScript values *)

(** JSON values as they reach the handlers through [express.json()].  Only
    the zero-ness of a number matters to the service. *)
Inductive Json : Type :=
| JUndefined
| JNull
| JBool (b : bool)
| JNum (n : Z)
| JStr (s : string)
| JArr (items : list Json)
| JObj (fields : list (string * Json)).

(** [!v] is [negb (truthy v)]. *)
Definition truthy (v : Json) : bool :=
  match v with
  | JUndefined | JNull => false
  | JBool b => b
  | JNum n => negb (n =? 0)%Z
  | JStr s => negb (s =? "")
  | JArr _ | JObj _ => true
  end.

(** Property access on a parsed object: the last binding of a key wins, a
    missing key reads as [undefined]. *)
Fixpoint field (k : string) (o : list (string * Json)) : Json :=
  match o with
  | [] => JUndefined
  | (k', v) :: rest =>
      match field k rest with
      | JUndefined => if k =? k' then v else JUndefined
      | later => later
      end
  end.

(** A thrown value: [errorMessage] is the platform's RPC error code,
    [message] and [stack] are the standard [Error] properties. *)
Record JsError : Type := mkError {
  errorMessage : option string;
  message : string;
  stack : string
}.

Definition TypeError (msg : string) : JsError :=
  mkError None msg ("TypeError: " ++ msg).

Definition Result (A : Type) : Type := (A + JsError)%type.

(** [BigInteger.prototype.toString()]: decimal digits, with a sign. *)
Definition toString (z : Z) : string :=
  NilEmpty.string_of_int (Z.to_int z).

(** ** Platform objects *)

(** What [client.getEntity] and [client.getMe] resolve to. *)
Record Entity : Type := mkEntity {
  id : Z;
  title : option string
}.

(** The participant records of the platform's schema.  The banned and left
    kinds carry a [peer], not a [userId]. *)
Inductive Participant : Type :=
| ChannelParticipant (uid : Z)
| ChannelParticipantSelf (uid : Z)
| ChannelParticipantCreator (uid : Z)
| ChannelParticipantAdmin (uid : Z)
| ChannelParticipantBanned (peer : Z)
| ChannelParticipantLeft (peer : Z).

(** [participant.userId] *)
Definition userId (p : Participant) : option Z :=
  match p with
  | ChannelParticipant u | ChannelParticipantSelf u
  | ChannelParticipantCreator u | ChannelParticipantAdmin u => Some u
  | ChannelParticipantBanned _ | ChannelParticipantLeft _ => None
  end.

(** [participant.constructor.name].  The client library generates every
    class of the schema from one template, [class VirtualClass]; the name
    of the schema type is kept in [className], which the service does not
    read.  So the constructor's name is the same for every record. *)
Definition constructor_name (p : Participant) : string := "VirtualClass".

(** [participant instanceof Api.ChannelParticipantCreator] *)
Definition instanceof_Creator (p : Participant) : bool :=
  match p with ChannelParticipantCreator _ => true | _ => false end.

(** [participant instanceof Api.ChannelParticipantAdmin] *)
Definition instanceof_Admin (p : Participant) : bool :=
  match p with ChannelParticipantAdmin _ => true | _ => false end.

(** [Api.ChatAdminRights], with the fields the service sets. *)
Record ChatAdminRights : Type := mkRights {
  changeInfo : bool;
  postMessages : bool;
  editMessages : bool;
  deleteMessages : bool;
  banUsers : bool;
  inviteUsers : bool;
  pinMessages : bool;
  addAdmins : bool;
  anonymous : bool;
  manageCall : bool;
  other : bool;
  manageTopics : bool
}.

(** The password configuration returned by [account.GetPassword] and the
    proof computed from it are opaque to the service. *)
Inductive PasswordSrp : Type := Srp (token : Z).
Inductive PasswordCheck : Type := InputCheckPasswordSRP (token : Z).

(** What the ledger client resolves to: it reports a failure in the [error]
    property of its reply and does not reject. *)
Record LedgerReply : Type := mkReply {
  data : Json;
  error : Json
}.

(** [v.k] on a value that is neither [null] nor [undefined]. *)
Definition prop (k : string) (v : Json) : Json :=
  match v with
  | JObj fields => field k fields
  | _ => JUndefined
  end.

(** ** Calls and their log *)

(** One entry per call on the platform client or on the ledger client, with
    the arguments the service passed and the outcome it observed. *)
Inductive Event : Type :=
| EConnect (r : Result unit)
| EDisconnect
| EGetEntity (handle : string) (r : Result Entity)
| EGetMe (r : Result Entity)
| EGetParticipant (channel me : Entity) (r : Result Participant)
| EJoinChannel (channel : Entity) (r : Result unit)
| ELeaveChannel (channel : Entity) (r : Result unit)
| EGetParticipants (channel : Entity) (offset limit : Z)
    (r : Result (list Participant))
| EEditAdmin (channel : Entity) (target : option Z)
    (rights : ChatAdminRights) (rank : string) (r : Result unit)
| EGetPassword (r : Result PasswordSrp)
| EComputeCheck (srp : PasswordSrp) (password : option string)
    (r : Result PasswordCheck)
| EEditCreator (channel buyer : Entity) (password : PasswordCheck)
    (r : Result unit)
| EJobsUpdate (jobId : Json) (completed_at : string) (r : LedgerReply)
| EJobsSelect (jobId : Json) (r : LedgerReply)
| EListingsUpdate (listing_id : Json) (r : LedgerReply).

(** The calls that change the channel after the ownership check. *)
Definition is_EditAdmin (e : Event) : bool :=
  match e with EEditAdmin _ _ _ _ _ => true | _ => false end.
Definition is_EditCreator (e : Event) : bool :=
  match e with EEditCreator _ _ _ _ => true | _ => false end.
Definition is_LeaveChannel (e : Event) : bool :=
  match e with ELeaveChannel _ _ => true | _ => false end.
Definition is_JoinChannel (e : Event) : bool :=
  match e with EJoinChannel _ _ => true | _ => false end.

(** ** Configuration *)

(** The environment variables the service reads at start-up. *)
Record Env : Type := mkEnv {
  TELEGRAM_ADMIN_SESSION_STRING : option string;
  TELEGRAM_ADMIN_2FA_PASSWORD : option string;
  env_API_SECRET : option string;
  TELEGRAM_API_ID : option string;
  TELEGRAM_API_HASH : option string
}.

(** [a || b] on an optional string: the empty string is falsy. *)
Definition or_default (a : option string) (b : string) : string :=
  match a with
  | Some s => if s =? "" then b else s
  | None => b
  end.

(** ** HTTP *)

Record Request : Type := mkRequest {
  x_api_secret : option string;
  body : list (string * Json)
}.

Record Response : Type := mkResponse {
  status : Z;
  json : Json
}.

(** A POST request as it arrives: the secret header, and what
    [express.json()] makes of the body, the parsed object or the error the
    parser raises. *)
Record HttpRequest : Type := mkHttp {
  http_x_api_secret : option string;
  payload : list (string * Json) + JsError
}.

(** [app.use(express.json())], in front of every route. *)
Definition express_json (http : HttpRequest) : Request + JsError :=
  match payload http with
  | inl fields => inl (mkRequest (http_x_api_secret http) fields)
  | inr err => inr err
  end.

(** The error-handling middleware, registered last. *)
Definition error_middleware (err : JsError) : Response :=
  mkResponse 500
    (JObj [("error", JStr "Internal server error");
           ("message", JStr (message err))]).

(** ** The remote collaborators *)

Section Service.

Variable W : Type.

(** The platform client and the ledger client, as transition functions on
    the world. *)
Record Platform : Type := mkPlatform {
  newClient : string -> option string -> option string -> Result unit;
  connect : W -> Result unit * W;
  disconnect : W -> W;
  getEntity : string -> W -> Result Entity * W;
  getMe : W -> Result Entity * W;
  GetParticipant : Entity -> Entity -> W -> Result Participant * W;
  JoinChannel : Entity -> W -> Result unit * W;
  LeaveChannel : Entity -> W -> Result unit * W;
  GetParticipants : Entity -> Z -> Z -> W -> Result (list Participant) * W;
  EditAdmin :
    Entity -> option Z -> ChatAdminRights -> string -> W -> Result unit * W;
  GetPassword : W -> Result PasswordSrp * W;
  computeCheck :
    PasswordSrp -> option string -> W -> Result PasswordCheck * W;
  EditCreator : Entity -> Entity -> PasswordCheck -> W -> Result unit * W;
  toISOString : W -> string;
  jobs_update : Json -> string -> W -> LedgerReply * W;
  jobs_select : Json -> W -> LedgerReply * W;
  listings_update : Json -> W -> LedgerReply * W
}.

Variable P : Platform.
Variable env : Env.

Definition ADMIN_SESSION_STRING : option string :=
  TELEGRAM_ADMIN_SESSION_STRING env.
Definition ADMIN_2FA_PASSWORD : option string :=
  TELEGRAM_ADMIN_2FA_PASSWORD env.
Definition API_SECRET : string :=
  or_default (env_API_SECRET env) "change-me-in-production".

(** ** The monad of a run *)

(** What a computation leaves behind: its value or the exception it threw,
    the world after it, and the calls it made, oldest first. *)
Record Run (A : Type) : Type := mkRun {
  result : Result A;
  after : W;
  calls : list Event
}.

Definition M (A : Type) : Type := W -> Run A.

Definition ret {A} (a : A) : M A := fun w => mkRun (inl a) w [].

Definition throw {A} (e : JsError) : M A := fun w => mkRun (inr e) w [].

Definition bind {A B} (m : M A) (f : A -> M B) : M B :=
  fun w =>
    match m w with
    | mkRun (inl a) w1 l1 =>
        match f a w1 with
        | mkRun r w2 l2 => mkRun r w2 (l1 ++ l2)
        end
    | mkRun (inr e) w1 l1 => mkRun (inr e) w1 l1
    end.

(** [try { m } catch (error) { h error }] *)
Definition try_catch {A} (m : M A) (h : JsError -> M A) : M A :=
  fun w =>
    match m w with
    | mkRun (inl a) w1 l1 => mkRun (inl a) w1 l1
    | mkRun (inr e) w1 l1 =>
        match h e w1 with
        | mkRun r w2 l2 => mkRun r w2 (l1 ++ l2)
        end
    end.

(** [try { m } finally { fin }]: the block's outcome stands unless the
    finaliser itself throws. *)
Definition try_finally {A} (m : M A) (fin : M unit) : M A :=
  fun w =>
    match m w with
    | mkRun r w1 l1 =>
        match fin w1 with
        | mkRun (inl _) w2 l2 => mkRun r w2 (l1 ++ l2)
        | mkRun (inr e) w2 l2 => mkRun (inr e) w2 (l1 ++ l2)
        end
    end.

(** An awaited call on a client, logged with its outcome. *)
Definition invoke {A} (op : W -> Result A * W) (ev : Result A -> Event)
  : M A :=
  fun w => let '(r, w') := op w in mkRun r w' [ev r].

(** An awaited call on the ledger client; it resolves with a reply. *)
Definition query (op : W -> LedgerReply * W) (ev : LedgerReply -> Event)
  : M LedgerReply :=
  fun w => let '(r, w') := op w in mkRun (inl r) w' [ev r].

Notation "x <- m ;; k" := (bind m (fun x => k))
  (at level 61, m at next level, right associativity).
Notation "m ;; k" := (bind m (fun _ => k))
  (at level 61, right associativity).

(** The calls of the platform client. *)
Definition client_connect : M unit := invoke (connect P) EConnect.
(** Closing the session completes on every path: the client library
    releases the connection without rejecting. *)
Definition client_disconnect : M unit :=
  fun w => mkRun (inl tt) (disconnect P w) [EDisconnect].
Definition client_getEntity (handle : string) : M Entity :=
  invoke (getEntity P handle) (EGetEntity handle).
Definition client_getMe : M Entity := invoke (getMe P) EGetMe.
Definition invoke_GetParticipant (channel me : Entity) : M Participant :=
  invoke (GetParticipant P channel me) (EGetParticipant channel me).
Definition invoke_JoinChannel (channel : Entity) : M unit :=
  invoke (JoinChannel P channel) (EJoinChannel channel).
Definition invoke_LeaveChannel (channel : Entity) : M unit :=
  invoke (LeaveChannel P channel) (ELeaveChannel channel).
Definition invoke_GetParticipants (channel : Entity) (offset limit : Z)
  : M (list Participant) :=
  invoke (GetParticipants P channel offset limit)
         (EGetParticipants channel offset limit).
Definition invoke_EditAdmin (channel : Entity) (target : option Z)
    (rights : ChatAdminRights) (rank : string) : M unit :=
  invoke (EditAdmin P channel target rights rank)
         (EEditAdmin channel target rights rank).
Definition invoke_GetPassword : M PasswordSrp :=
  invoke (GetPassword P) EGetPassword.
Definition call_computeCheck (srp : PasswordSrp) (password : option string)
  : M PasswordCheck :=
  invoke (computeCheck P srp password) (EComputeCheck srp password).
Definition invoke_EditCreator (channel buyer : Entity)
    (password : PasswordCheck) : M unit :=
  invoke (EditCreator P channel buyer password)
         (EEditCreator channel buyer password).

(** ** The five operations *)

(** [const session = new StringSession(ADMIN_SESSION_STRING.trim());
     client = new TelegramClient(session, API_ID, API_HASH,
                                 { connectionRetries: 5 })].
    With no session string [.trim()] throws; otherwise the two constructors
    of the client library build the client or throw (a session string that
    does not decode, a missing API id or hash).  [newClient] is what they
    make of the session string and of the API id and hash as configured;
    they call nothing. *)
Definition new_client : Result unit :=
  match ADMIN_SESSION_STRING with
  | None =>
      inr (TypeError "Cannot read properties of undefined (reading 'trim')")
  | Some session =>
      newClient P session (TELEGRAM_API_ID env) (TELEGRAM_API_HASH env)
  end.

(** The frame every operation shares:
    [let client = null; try { session; client = new TelegramClient; ... }
     catch (error) { throw error } finally { if (client) disconnect }].
    When the construction of the client throws, [client] is still null:
    nothing is connected and nothing is disconnected. *)
Definition with_client {A} (work : M A) : M A :=
  match new_client with
  | inr error => throw error
  | inl _ => try_finally (client_connect ;; work) client_disconnect
  end.

(** [u.startsWith('@') ? u.slice(1) : u], where [receiver] is the name of
    the variable [u] in the source; on anything but a string the method
    call throws. *)
Definition normalize (receiver : string) (username : Json) : M string :=
  match username with
  | JStr (String "@" rest) => ret rest
  | JStr s => ret s
  | JUndefined =>
      throw (TypeError "Cannot read properties of undefined (reading 'startsWith')")
  | JNull =>
      throw (TypeError "Cannot read properties of null (reading 'startsWith')")
  | _ => throw (TypeError (receiver ++ ".startsWith is not a function"))
  end.

Record JoinResult : Type := mkJoin {
  joined : bool;
  alreadyMember : bool
}.

Definition USER_NOT_PARTICIPANT : string := "USER_NOT_PARTICIPANT".

(** [error.errorMessage === 'USER_NOT_PARTICIPANT'] *)
Definition is_not_participant (e : JsError) : bool :=
  match errorMessage e with
  | Some code => code =? USER_NOT_PARTICIPANT
  | None => false
  end.

Definition joinChannelIfNeeded (channelUsername : Json) : M JoinResult :=
  with_client (
    normalizedUsername <- normalize "channelUsername" channelUsername ;;
    channel <- client_getEntity normalizedUsername ;;
    me <- client_getMe ;;
    isMember <-
      try_catch
        (invoke_GetParticipant channel me ;; ret true)
        (fun error =>
           if is_not_participant error then ret false else throw error) ;;
    if negb isMember then
      invoke_JoinChannel channel ;;
      ret (mkJoin true false)
    else
      ret (mkJoin true true)).

(** The rights-edit request of the revocation loop: every capability false. *)
Definition noRights : ChatAdminRights :=
  mkRights false false false false false false false false false false
           false false.

(** [participant.userId?.toString() === me.id.toString()] *)
Definition is_self (participant : Participant) (me : Entity) : bool :=
  match userId participant with
  | Some u => toString u =? toString (id me)
  | None => false
  end.

(** [participant.userId.toString()] *)
Definition userId_toString (participant : Participant) : M string :=
  match userId participant with
  | Some u => ret (toString u)
  | None =>
      throw (TypeError "Cannot read properties of undefined (reading 'toString')")
  end.

(** The [for ... of participants.participants] loop, with the array
    [removedAdmins] threaded through. *)
Fixpoint remove_loop (channel me : Entity) (participants : list Participant)
    (removedAdmins : list string) : M (list string) :=
  match participants with
  | [] => ret removedAdmins
  | participant :: rest =>
      if instanceof_Creator participant then
        remove_loop channel me rest removedAdmins
      else if is_self participant me then
        remove_loop channel me rest removedAdmins
      else
        removedAdmins' <-
          try_catch
            (invoke_EditAdmin channel (userId participant) noRights "" ;;
             s <- userId_toString participant ;;
             ret (removedAdmins ++ [s])%list)
            (fun _ => ret removedAdmins) ;;
        remove_loop channel me rest removedAdmins'
  end.

Definition removeAllOtherAdmins (channelUsername : Json) : M (list string) :=
  with_client (
    normalizedUsername <- normalize "channelUsername" channelUsername ;;
    channel <- client_getEntity normalizedUsername ;;
    me <- client_getMe ;;
    participants <- invoke_GetParticipants channel 0 200 ;;
    remove_loop channel me participants []).

Record LeaveResult : Type := mkLeave { left : bool }.

Definition leaveChannel (channelUsername : Json) : M LeaveResult :=
  with_client (
    normalizedUsername <- normalize "channelUsername" channelUsername ;;
    channel <- client_getEntity normalizedUsername ;;
    invoke_LeaveChannel channel ;;
    ret (mkLeave true)).

Record OwnershipCheck : Type := mkCheck {
  isOwner : bool;
  currentRole : string;
  participantType : string;
  channelId : string;
  channelTitle : option string
}.

(** The tail of [checkChannelOwnership], from the participant record to the
    returned object. *)
Definition ownership_of (channel : Entity) (participant : Participant)
  : OwnershipCheck :=
  let isCreator := instanceof_Creator participant in
  let isAdmin := instanceof_Admin participant in
  let currentRole := "unknown" in
  let currentRole :=
    if isCreator then "creator"
    else if isAdmin then "admin"
    else "member" in
  mkCheck isCreator currentRole (constructor_name participant)
          (toString (id channel)) (title channel).

Definition checkChannelOwnership (channelUsername : Json) : M OwnershipCheck :=
  with_client (
    normalizedUsername <- normalize "channelUsername" channelUsername ;;
    channel <- client_getEntity normalizedUsername ;;
    me <- client_getMe ;;
    participant <- invoke_GetParticipant channel me ;;
    ret (ownership_of channel participant)).

Definition transferChannelOwnership (channelUsername buyerUsername : Json)
  : M unit :=
  with_client (
    normalizedChannel <- normalize "channelUsername" channelUsername ;;
    normalizedBuyer <- normalize "buyerUsername" buyerUsername ;;
    channel <- client_getEntity normalizedChannel ;;
    buyerUser <- client_getEntity normalizedBuyer ;;
    passwordSrp <- invoke_GetPassword ;;
    passwordHash <- call_computeCheck passwordSrp ADMIN_2FA_PASSWORD ;;
    invoke_EditCreator channel buyerUser passwordHash).

(** ** The request handlers *)

(** [secret !== API_SECRET], where an absent header reads as [undefined]. *)
Definition strict_neq (secret : option string) (expected : string) : bool :=
  match secret with
  | Some s => negb (s =? expected)
  | None => true
  end.

(** The middleware in front of every POST route: [Some] is the response it
    sends, [None] is [next()]. *)
Definition verifySecret (req : Request) : option Response :=
  let secret := x_api_secret req in
  if strict_neq secret API_SECRET then
    Some (mkResponse 401 (JObj [("error", JStr "Unauthorized")]))
  else None.

(** [app.post(path, verifySecret, handler)]: the route as registered, on
    a request whose body [express.json()] has parsed. *)
Definition post (handler : Request -> M Response) (req : Request)
  : M Response :=
  match verifySecret req with
  | Some res => ret res
  | None => handler req
  end.

(** A request on its way through the application: [express.json()] first;
    when the body does not parse, the parser hands its error to the error
    middleware and the route is not entered. *)
Definition served (route : Request -> M Response) (http : HttpRequest)
  : M Response :=
  match express_json http with
  | inl req => route req
  | inr err => ret (error_middleware err)
  end.

Definition json_of_join (r : JoinResult) : Json :=
  JObj [("joined", JBool (joined r));
        ("alreadyMember", JBool (alreadyMember r))].

Definition json_of_option (o : option string) : Json :=
  match o with Some s => JStr s | None => JUndefined end.

Definition json_of_check (c : OwnershipCheck) : Json :=
  JObj [("isOwner", JBool (isOwner c));
        ("currentRole", JStr (currentRole c));
        ("participantType", JStr (participantType c));
        ("channelId", JStr (channelId c));
        ("channelTitle", json_of_option (channelTitle c))].

Definition join_channel_handler (req : Request) : M Response :=
  let channelUsername := field "channelUsername" (body req) in
  if negb (truthy channelUsername) then
    ret (mkResponse 400 (JObj [("error", JStr "channelUsername is required")]))
  else
    try_catch
      (result <- joinChannelIfNeeded channelUsername ;;
       ret (mkResponse 200 (json_of_join result)))
      (fun error =>
         ret (mkResponse 500 (JObj [("error", JStr (message error))]))).

Definition check_ownership_handler (req : Request) : M Response :=
  let channelUsername := field "channelUsername" (body req) in
  if negb (truthy channelUsername) then
    ret (mkResponse 400 (JObj [("error", JStr "channelUsername is required")]))
  else
    try_catch
      (result <- checkChannelOwnership channelUsername ;;
       ret (mkResponse 200 (json_of_check result)))
      (fun error =>
         ret (mkResponse 500
                (JObj [("error", JStr (message error));
                       ("isOwner", JBool false);
                       ("currentRole", JStr ("error: " ++ message error))]))).

Definition required_fields : Json :=
  JObj [("error",
         JStr "jobId, channelUsername, and buyerUsername are required")].

Definition not_ready (ownershipCheck : OwnershipCheck) (instruction : string)
  : Json :=
  JObj [("error", JStr "Transfer not ready");
        ("details", json_of_check ownershipCheck);
        ("instruction", JStr instruction)].

Definition failure (error : JsError) : Json :=
  JObj [("error", JStr (message error)); ("stack", JStr (stack error))].

(** The five-step handler. *)
Definition transfer_ownership_handler (req : Request) : M Response :=
  let jobId := field "jobId" (body req) in
  let channelUsername := field "channelUsername" (body req) in
  let buyerUsername := field "buyerUsername" (body req) in
  if negb (truthy jobId) || negb (truthy channelUsername)
     || negb (truthy buyerUsername) then
    ret (mkResponse 400 required_fields)
  else
    try_catch
      (joinChannelIfNeeded channelUsername ;;
       ownershipCheck <- checkChannelOwnership channelUsername ;;
       if negb (isOwner ownershipCheck) then
         ret (mkResponse 400
                (not_ready ownershipCheck
                   "Seller must first transfer channel ownership to escrow account"))
       else
         removedAdmins <- removeAllOtherAdmins channelUsername ;;
         transferChannelOwnership channelUsername buyerUsername ;;
         leaveChannel channelUsername ;;
         ret (mkResponse 200
                (JObj [("success", JBool true);
                       ("message", JStr "Ownership transferred successfully");
                       ("jobId", jobId);
                       ("transferComplete", JBool true);
                       ("steps",
                        JObj [("joined", JBool true);
                              ("adminsRemoved",
                               JNum (Z.of_nat (List.length removedAdmins)));
                              ("ownershipTransferred", JBool true);
                              ("escrowLeft", JBool true)])])))
      (fun error => ret (mkResponse 500 (failure error))).

(** The three-step handler of [index.js]: check, handoff, ledger update. *)
Definition transfer_ownership_handler_v1 (req : Request) : M Response :=
  let jobId := field "jobId" (body req) in
  let channelUsername := field "channelUsername" (body req) in
  let buyerUsername := field "buyerUsername" (body req) in
  if negb (truthy jobId) || negb (truthy channelUsername)
     || negb (truthy buyerUsername) then
    ret (mkResponse 400 required_fields)
  else
    try_catch
      (ownershipCheck <- checkChannelOwnership channelUsername ;;
       if negb (isOwner ownershipCheck) then
         ret (mkResponse 400
                (not_ready ownershipCheck
                   "Seller must first transfer channel ownership to admin account"))
       else
         transferChannelOwnership channelUsername buyerUsername ;;
         completed_at <- (fun w => ret (toISOString P w) w) ;;
         updated <- query (jobs_update P jobId completed_at)
                          (EJobsUpdate jobId completed_at) ;;
         let updateError := error updated in
         selected <- query (jobs_select P jobId) (EJobsSelect jobId) ;;
         let job := data selected in
         (if truthy job then
            query (listings_update P (prop "listing_id" job))
                  (EListingsUpdate (prop "listing_id" job)) ;;
            ret tt
          else ret tt) ;;
         ret (mkResponse 200
                (JObj [("success", JBool true);
                       ("message", JStr "Ownership transferred successfully");
                       ("jobId", jobId)])))
      (fun error => ret (mkResponse 500 (failure error))).

(** The POST routes. *)
Definition api_join_channel : Request -> M Response :=
  post join_channel_handler.
Definition api_check_ownership : Request -> M Response :=
  post check_ownership_handler.
Definition api_transfer_ownership : Request -> M Response :=
  post transfer_ownership_handler.
Definition api_transfer_ownership_v1 : Request -> M Response :=
  post transfer_ownership_handler_v1.

End Service.

Arguments ret {W A} a w.
Arguments throw {W A} e w.

(** ** A small platform to run the service on *)

(** The escrow's standing in one channel, the administrators the platform
    lists, the targets whose rights-edit it rejects, and switches for the
    join request, for the handoff and for the ledger. *)
Record Toy : Type := mkToy {
  escrow : option Participant;
  listed : list Participant;
  refused : list Z;
  join_accepted : bool;
  handoff_accepted : bool;
  ledger_up : bool
}.

Definition set_escrow (standing : option Participant) (w : Toy) : Toy :=
  mkToy standing (listed w) (refused w) (join_accepted w)
        (handoff_accepted w) (ledger_up w).

Definition rpc_error (code : string) : JsError :=
  mkError (Some code) code ("RPCError: " ++ code).

Definition toy_getEntity (handle : string) (w : Toy) : Result Entity * Toy :=
  if handle =? "shop1" then (inl (mkEntity 1001 (Some "Shop One")), w)
  else if handle =? "buyer" then (inl (mkEntity 77 None), w)
  else (inr (rpc_error "USERNAME_NOT_OCCUPIED"), w).

Definition toy_GetParticipant (channel me : Entity) (w : Toy)
  : Result Participant * Toy :=
  match escrow w with
  | Some p => (inl p, w)
  | None => (inr (rpc_error "USER_NOT_PARTICIPANT"), w)
  end.

Definition toy_JoinChannel (channel : Entity) (w : Toy) : Result unit * Toy :=
  if join_accepted w then
    (inl tt, set_escrow (Some (ChannelParticipantSelf 42)) w)
  else (inr (rpc_error "CHANNELS_TOO_MUCH"), w).

Definition toy_LeaveChannel (channel : Entity) (w : Toy) : Result unit * Toy :=
  (inl tt, set_escrow None w).

Definition toy_EditAdmin (channel : Entity) (target : option Z)
    (rights : ChatAdminRights) (rank : string) (w : Toy)
  : Result unit * Toy :=
  match target with
  | Some u =>
      if existsb (Z.eqb u) (refused w)
      then (inr (rpc_error "CHAT_ADMIN_REQUIRED"), w)
      else (inl tt, w)
  | None => (inr (rpc_error "USER_ID_INVALID"), w)
  end.

Definition toy_computeCheck (srp : PasswordSrp) (password : option string)
    (w : Toy) : Result PasswordCheck * Toy :=
  match password, srp with
  | Some _, Srp n => (inl (InputCheckPasswordSRP (n + 1)), w)
  | None, _ => (inr (mkError None "Password is required" "Error"), w)
  end.

Definition toy_EditCreator (channel buyer : Entity) (password : PasswordCheck)
    (w : Toy) : Result unit * Toy :=
  if handoff_accepted w then
    (inl tt, set_escrow (Some (ChannelParticipantAdmin 42)) w)
  else (inr (rpc_error "PASSWORD_HASH_INVALID"), w).

Definition toy_ledger (ok : Json) (w : Toy) : LedgerReply * Toy :=
  if ledger_up w then (mkReply ok JNull, w)
  else (mkReply JNull (JObj [("message", JStr "fetch failed")]), w).

(** The constructors of the small platform want an API id and hash. *)
Definition toy_newClient (session : string) (api_id api_hash : option string)
  : Result unit :=
  match api_id, api_hash with
  | Some _, Some _ => inl tt
  | _, _ =>
      inr (mkError None "Your API ID or Hash cannot be empty or undefined"
                   "Error")
  end.

Definition toy : Platform Toy :=
  mkPlatform
    toy_newClient
    (fun w => (inl tt, w))
    (fun w => w)
    toy_getEntity
    (fun w => (inl (mkEntity 42 None), w))
    toy_GetParticipant
    toy_JoinChannel
    toy_LeaveChannel
    (fun _ _ _ w => (inl (listed w), w))
    toy_EditAdmin
    (fun w => (inl (Srp 7), w))
    toy_computeCheck
    toy_EditCreator
    (fun _ => "2024-01-01T00:00:00.000Z")
    (fun _ _ w => toy_ledger JNull w)
    (fun _ w => toy_ledger (JObj [("listing_id", JNum 5)]) w)
    (fun _ w => toy_ledger JNull w).

Definition toy_env : Env :=
  mkEnv (Some "1BQANOTEuMTA4") (Some "hunter2") (Some "s3cret")
        (Some "12345") (Some "0123456789abcdef").

(** A well-formed transfer request. *)
Definition good_request : Request :=
  mkRequest (Some "s3cret")
    [("jobId", JStr "job-1"); ("channelUsername", JStr "@shop1");
     ("buyerUsername", JStr "@buyer")].

(** Escrow is creator; the platform lists it with two other administrators. *)
Definition owned : Toy :=
  mkToy (Some (ChannelParticipantCreator 42))
        [ChannelParticipantCreator 42; ChannelParticipantAdmin 5;
         ChannelParticipantAdmin 6]
        [] true true true.

(** Escrow has not joined the channel. *)
Definition outside : Toy :=
  mkToy None [ChannelParticipantCreator 9; ChannelParticipantAdmin 5]
        [] true true true.

(** Escrow has not joined, and the platform rejects its join request. *)
Definition shut_out : Toy :=
  mkToy None [ChannelParticipantCreator 9; ChannelParticipantAdmin 5]
        [] false true true.

(** Escrow is an ordinary member. *)
Definition member : Toy :=
  mkToy (Some (ChannelParticipant 42))
        [ChannelParticipantCreator 9; ChannelParticipantAdmin 5]
        [] true true true.

(** Escrow is an administrator of the channel. *)
Definition administered : Toy :=
  mkToy (Some (ChannelParticipantAdmin 42))
        [ChannelParticipantCreator 9; ChannelParticipantAdmin 42]
        [] true true true.

(** A request whose body is not JSON, with the wrong secret. *)
Definition garbled_request : HttpRequest :=
  mkHttp (Some "guess")
    (inr (mkError None "Unexpected token } in JSON at position 12"
                  "SyntaxError: Unexpected token } in JSON at position 12")).

(** The requests above, as they arrive. *)
Definition arriving (req : Request) : HttpRequest :=
  mkHttp (x_api_secret req) (inl (body req)).

(** Escrow was banned from the channel. *)
Definition banned : Toy :=
  mkToy (Some (ChannelParticipantBanned 42))
        [ChannelParticipantCreator 9] [] true true true.


(** Escrow is creator; the rights-edit on administrator 5 is rejected. *)
Definition stubborn_admin : Toy :=
  mkToy (Some (ChannelParticipantCreator 42))
        [ChannelParticipantCreator 42; ChannelParticipantAdmin 5;
         ChannelParticipantAdmin 42; ChannelParticipantAdmin 6]
        [5%Z] true true true.

(** Escrow is creator and the ledger is unreachable. *)
Definition ledger_down : Toy :=
  mkToy (Some (ChannelParticipantCreator 42))
        [ChannelParticipantCreator 42] [] true true false.

(** A request without a job identifier and with the wrong secret. *)
Definition stray_request : Request :=
  mkRequest (Some "guess")
    [("channelUsername", JStr "@shop1"); ("buyerUsername", JStr "@buyer")].

(** An authenticated request without a buyer. *)
Definition short_request : Request :=
  mkRequest (Some "s3cret")
    [("jobId", JStr "job-1"); ("channelUsername", JStr "@shop1")].

(** An authenticated ownership query. *)
Definition ownership_query : Request :=
  mkRequest (Some "s3cret") [("channelUsername", JStr "@shop1")].


(** ** Reading a log *)

(** The calls that change the channel once ownership has been checked. *)
Definition mutating (e : Event) : bool :=
  is_EditAdmin e || is_EditCreator e || is_LeaveChannel e.

(** [absent p l]: no call of the log satisfies [p]. *)
Definition absent (p : Event -> bool) (l : list Event) : Prop :=
  forallb (fun e => negb (p e)) l = true.

(** The targets of the rights-edit calls of a log, in order. *)
Fixpoint edit_targets (l : list Event) : list (option Z) :=
  match l with
  | [] => []
  | EEditAdmin _ target _ _ _ :: rest => target :: edit_targets rest
  | _ :: rest => edit_targets rest
  end.

(** The identifiers, as the service prints them, of the targets whose
    rights-edit call succeeded. *)
Fixpoint revoked (l : list Event) : list string :=
  match l with
  | [] => []
  | EEditAdmin _ (Some u) _ _ (inl _) :: rest => toString u :: revoked rest
  | _ :: rest => revoked rest
  end.

(** Every rights-edit call of the log succeeded. *)
Fixpoint edits_succeed (l : list Event) : bool :=
  match l with
  | [] => true
  | EEditAdmin _ _ _ _ (inr _) :: _ => false
  | _ :: rest => edits_succeed rest
  end.

(** The listed records the revocation loop does not skip. *)
Definition not_skipped (me : Entity) (p : Participant) : bool :=
  negb (instanceof_Creator p) && negb (is_self p me).

(** The qualifying administrators of a listing: records other than the
    creator's whose user identifier is not the escrow's. *)
Fixpoint qualifying (me : Entity) (ps : list Participant) : list Z :=
  match ps with
  | [] => []
  | p :: rest =>
      match userId p with
      | Some u =>
          if instanceof_Creator p || (u =? id me)%Z
          then qualifying me rest
          else u :: qualifying me rest
      | None => qualifying me rest
      end
  end.

(** The calls on the ledger client. *)
Definition is_ledger (e : Event) : bool :=
  match e with
  | EJobsUpdate _ _ _ | EJobsSelect _ _ | EListingsUpdate _ _ => true
  | _ => false
  end.

(** ** Sessions in a log *)

(** Where a log stands with respect to the platform session: none is open,
    or one was opened by a [connect] that succeeded or failed. *)
Inductive Session : Type :=
| Closed
| Opened (connected : bool).

(** One call, checked against the session discipline: [connect] needs no
    open session, [disconnect] needs one, every other call on the platform
    client needs a session whose [connect] succeeded, and a call on the
    ledger client is made between sessions. *)
Definition session_step (s : Session) (e : Event) : option Session :=
  match e with
  | EConnect r =>
      match s with
      | Closed => Some (Opened (match r with inl _ => true | inr _ => false end))
      | Opened _ => None
      end
  | EDisconnect =>
      match s with
      | Opened _ => Some Closed
      | Closed => None
      end
  | EJobsUpdate _ _ _ | EJobsSelect _ _ | EListingsUpdate _ _ =>
      match s with
      | Closed => Some Closed
      | Opened _ => None
      end
  | _ =>
      match s with
      | Opened true => Some (Opened true)
      | _ => None
      end
  end.

Fixpoint session_scan (s : Session) (l : list Event) : option Session :=
  match l with
  | [] => Some s
  | e :: rest =>
      match session_step s e with
      | Some s' => session_scan s' rest
      | None => None
      end
  end.

(** ** More of the small platform *)

(** The small platform with a channel that cannot be left. *)
Definition sticky : Platform Toy :=
  mkPlatform
    (newClient toy) (connect toy) (disconnect toy) (getEntity toy) (getMe toy)
    (GetParticipant toy) (JoinChannel toy)
    (fun _ w => (inr (rpc_error "CHANNEL_PRIVATE"), w))
    (GetParticipants toy) (EditAdmin toy) (GetPassword toy)
    (computeCheck toy) (EditCreator toy) (toISOString toy)
    (jobs_update toy) (jobs_select toy) (listings_update toy).


(** An environment without the session string. *)
Definition env_without_session : Env :=
  mkEnv None (Some "hunter2") (Some "s3cret")
        (Some "12345") (Some "0123456789abcdef").

(** An environment without the two-factor password. *)
Definition env_without_password : Env :=
  mkEnv (Some "1BQANOTEuMTA4") None (Some "s3cret")
        (Some "12345") (Some "0123456789abcdef").

(** An environment that sets no secret, and one that sets an empty one. *)
Definition env_without_secret : Env :=
  mkEnv (Some "1BQANOTEuMTA4") (Some "hunter2") None
        (Some "12345") (Some "0123456789abcdef").
Definition env_with_empty_secret : Env :=
  mkEnv (Some "1BQANOTEuMTA4") (Some "hunter2") (Some "")
        (Some "12345") (Some "0123456789abcdef").

(** An environment without the API id. *)
Definition env_without_api_id : Env :=
  mkEnv (Some "1BQANOTEuMTA4") (Some "hunter2") (Some "s3cret")
        None (Some "0123456789abcdef").


(** An authenticated transfer request whose job identifier is zero. *)
Definition zero_job_request : Request :=
  mkRequest (Some "s3cret")
    [("jobId", JNum 0); ("channelUsername", JStr "@shop1");
     ("buyerUsername", JStr "@buyer")].

(** A request that carries the placeholder secret. *)
Definition placeholder_request : Request :=
  mkRequest (Some "change-me-in-production")
    [("channelUsername", JStr "@shop1")].

(** A request without the secret header. *)
Definition anonymous_request : Request :=
  mkRequest None [("channelUsername", JStr "@shop1")].

(** An authenticated request without a channel. *)
Definition empty_request : Request := mkRequest (Some "s3cret") [].

(** The values [!v] holds for. *)
Definition falsy_values : list Json :=
  [JUndefined; JNull; JBool false; JNum 0; JStr ""].

(** * Properties *)

Unset Implicit Arguments.

Section Properties.

Local Open Scope list_scope.

Variable W : Type.
Variable P : Platform W.
Variable env : Env.

Lemma toString_inj (a b : Z) : toString a = toString b -> a = b.
Proof.
  unfold toString. intros H.
  apply (f_equal NilEmpty.int_of_string) in H.
  rewrite !NilEmpty.isi in H.
  apply DecimalZ.to_int_inj. congruence.
Qed.

Lemma normalize_cases (r : string) (u : Json) (w : W) :
  (exists s, normalize r u w = mkRun (inl s) w []) \/
  (exists e, normalize r u w = mkRun (inr e) w []).
Proof.
  destruct u as [ | | b | n | s | l | f]; unfold normalize, ret, throw; eauto.
  destruct s as [|[[] [] [] [] [] [] [] []] rest]; eauto.
Qed.

Ltac call_step :=
  match goal with
  | |- context [match TELEGRAM_ADMIN_SESSION_STRING ?e with _ => _ end] =>
      destruct (TELEGRAM_ADMIN_SESSION_STRING e)
  | |- context [newClient ?P ?a ?b ?c] =>
      let E := fresh "E" in
      destruct (newClient P a b c) as [[] | ?] eqn:E
  | |- context [normalize ?r ?u ?w] =>
      let s := fresh "s" in
      let H := fresh "Hnorm" in
      destruct (normalize_cases r u w) as [[s H] | [s H]]; rewrite H
  | |- context [match ?x with pair _ _ => _ end] =>
      let E := fresh "E" in
      destruct x as [[? | ?] ?] eqn:E;
      repeat match goal with u : unit |- _ => destruct u end
  | |- context [if ?b then _ else _] =>
      let E := fresh "E" in
      destruct b eqn:E
  end.

Ltac loop_step :=
  match goal with
  | |- context [remove_loop ?P ?c ?m ?ps ?acc ?w] =>
      let H := fresh "Hloop" in
      destruct (remove_loop P c m ps acc w) as [[? | ?] ? ?] eqn:H
  end.

Ltac call_cases :=
  repeat (cbn -[normalize remove_loop]; unfold ret, throw; try call_step).

Ltac run_cases :=
  repeat (cbn -[normalize remove_loop]; unfold ret, throw;
          try first [call_step | loop_step]).

Ltac unfold_run :=
  unfold joinChannelIfNeeded, checkChannelOwnership, removeAllOtherAdmins,
    transferChannelOwnership, leaveChannel, with_client, new_client,
    ADMIN_SESSION_STRING, ADMIN_2FA_PASSWORD,
    try_finally, try_catch, bind, client_connect, client_disconnect,
    client_getEntity, client_getMe, invoke_GetParticipant,
    invoke_JoinChannel, invoke_LeaveChannel, invoke_GetParticipants,
    invoke_GetPassword, call_computeCheck, invoke_EditCreator, invoke.

Lemma join_no_mutating (u : Json) (w : W) :
  absent mutating (calls (joinChannelIfNeeded P env u w)).
Proof.
  unfold absent. unfold_run. run_cases; reflexivity.
Qed.

Lemma check_no_mutating (u : Json) (w : W) :
  absent mutating (calls (checkChannelOwnership P env u w)).
Proof.
  unfold absent. unfold_run. run_cases; reflexivity.
Qed.

Lemma absent_app (p : Event -> bool) (l l' : list Event) :
  absent p (l ++ l') <-> absent p l /\ absent p l'.
Proof.
  unfold absent. rewrite forallb_app, andb_true_iff. tauto.
Qed.

Lemma absent_nil (p : Event -> bool) : absent p [].
Proof. reflexivity. Qed.



(** A call that the first part of a log cannot contain lies in the rest. *)
Lemma split_past_absent (p : Event -> bool) (l l' pre post : list Event)
    (x : Event) :
  absent p l -> p x = true -> l ++ l' = pre ++ x :: post ->
  exists mid, pre = l ++ mid /\ l' = mid ++ x :: post.
Proof.
  unfold absent. revert pre.
  induction l as [|e l IH]; intros pre Hl Hx Heq; simpl in *.
  - exists pre. auto.
  - apply andb_true_iff in Hl. destruct Hl as [He Hl].
    destruct pre as [|e' pre]; simpl in Heq.
    + injection Heq as -> _. rewrite Hx in He. discriminate.
    + injection Heq as -> Heq.
      destruct (IH pre Hl Hx Heq) as [mid [-> ->]].
      exists mid. auto.
Qed.

Lemma absent_no_split (p : Event -> bool) (l pre post : list Event)
    (x : Event) :
  absent p l -> p x = true -> l <> pre ++ x :: post.
Proof.
  intros Hl Hx Heq. rewrite <- (app_nil_r l) in Heq.
  destruct (split_past_absent _ _ _ _ _ _ Hl Hx Heq) as [mid [_ Hnil]].
  destruct mid; discriminate.
Qed.

(** The rest of the loop, named, with what is known of it. *)
Ltac loop_IH IH :=
  match goal with
  | |- context [remove_loop ?P ?c ?m ?ps ?acc ?w] =>
      let H := fresh "Hrest" in
      pose proof (IH acc w) as H; cbv zeta in H;
      destruct (remove_loop P c m ps acc w) as [? ? ?];
      cbn [result after calls] in *
  end.

(** The revocation loop issues rights-edit calls and nothing else. *)
Lemma remove_loop_only_edits (channel me : Entity) (ps : list Participant) :
  forall (acc : list string) (w : W),
    forallb is_EditAdmin (calls (remove_loop P channel me ps acc w)) = true.
Proof.
  induction ps as [|p ps IH]; intros acc w; simpl; auto.
  destruct (instanceof_Creator p); auto.
  destruct (is_self p me); auto.
  unfold bind, try_catch, invoke_EditAdmin, invoke, userId_toString.
  destruct (EditAdmin P channel (userId p) noRights "" w) as [[[]|e] w'];
    [destruct (userId p)|]; unfold ret, throw; cbn -[remove_loop];
    loop_IH IH; auto.
Qed.






(** The handoff returns only when its creator-edit call was accepted. *)
Lemma transfer_returns_after_EditCreator (u b : Json) (w : W) :
  result (transferChannelOwnership P env u b w) = inl tt ->
  exists channel buyer password,
    In (EEditCreator channel buyer password (inl tt))
       (calls (transferChannelOwnership P env u b w)).
Proof.
  unfold_run. run_cases; try discriminate.
  intros _. do 3 eexists. simpl. do 5 right. left. reflexivity.
Qed.

(** ** The five-step orchestrator *)






(** ** The role classifier *)

(** What the participant lookup of a classifier run decides. *)
Lemma check_cases (u : Json) (w : W) :
  let run := checkChannelOwnership P env u w in
  (exists channel me p,
      result run = inl (ownership_of channel p) /\
      forall c m r, In (EGetParticipant c m r) (calls run) ->
                    c = channel /\ m = me /\ r = inl p)
  \/ (exists channel me e,
      result run = inr e /\
      forall c m r, In (EGetParticipant c m r) (calls run) ->
                    c = channel /\ m = me /\ r = inr e)
  \/ ((exists e, result run = inr e) /\
      forall c m r, ~ In (EGetParticipant c m r) (calls run)).
Proof.
  unfold_run. run_cases.
  all: try (right; right; split; [eexists; reflexivity|];
            intros c m r H; simpl in H;
            repeat (destruct H as [H|H]; try discriminate H); exact H).
  - left. exists e, e0, p. split; [reflexivity|].
    intros c m r H; simpl in H.
    repeat (destruct H as [H|H]; try discriminate H); try contradiction.
    injection H as <- <- <-. auto.
  - right; left. exists e, e0, j. split; [reflexivity|].
    intros c m r H; simpl in H.
    repeat (destruct H as [H|H]; try discriminate H); try contradiction.
    injection H as <- <- <-. auto.
Qed.

(** C3. For every participant record the platform returns to the
    classifier, the classifier returns a result, [isOwner] is true exactly
    when the record is of the creator kind, and [currentRole] is "creator"
    for a creator record, "admin" for an admin record and "member" for
    every other record; and the classifier returns only on such a
    record. *)
Theorem classifier_follows_record_kind (u : Json) (w : W) :
  let run := checkChannelOwnership P env u w in
  (forall channel me participant,
      In (EGetParticipant channel me (inl participant)) (calls run) ->
      exists ownershipCheck,
        result run = inl ownershipCheck
        /\ (isOwner ownershipCheck = true <->
            exists uid, participant = ChannelParticipantCreator uid)
        /\ currentRole ownershipCheck =
             match participant with
             | ChannelParticipantCreator _ => "creator"
             | ChannelParticipantAdmin _ => "admin"
             | _ => "member"
             end)
  /\ (forall ownershipCheck,
      result run = inl ownershipCheck ->
      exists channel me participant,
        In (EGetParticipant channel me (inl participant)) (calls run)).
Proof.
  intros run. subst run. split.
  - intros channel me participant Hin.
    destruct (check_cases u w) as
      [(c & m & p & Hr & Hlog)
      |[(c & m & e & Hr & Hlog) | [_ Hlog]]]; cbv zeta in *.
    + destruct (Hlog _ _ _ Hin) as (-> & -> & [= ->]).
      exists (ownership_of c p). split; [exact Hr|].
      destruct p; simpl; (split; [split|reflexivity]);
        try (intros H; discriminate H);
        try (intros [k Hk]; discriminate Hk);
        try reflexivity.
      intros _. eexists. reflexivity.
    + destruct (Hlog _ _ _ Hin) as (_ & _ & [=]).
    + destruct (Hlog _ _ _ Hin).
  - intros ownershipCheck. unfold_run. run_cases; try discriminate.
    intros _. do 3 eexists. simpl. do 3 right. left. reflexivity.
Qed.

(** C9. Whenever the classifier returns, [currentRole] is "creator",
    "admin" or "member" and never the initial "unknown"; a record that is
    neither of the creator kind nor of the admin kind (a banned or left
    participant, say) is reported as "member". *)
Theorem classifier_role_is_one_of_three
    (u : Json) (w : W) (ownershipCheck : OwnershipCheck) :
  let run := checkChannelOwnership P env u w in
  result run = inl ownershipCheck ->
  In (currentRole ownershipCheck) ["creator"; "admin"; "member"]
  /\ currentRole ownershipCheck <> "unknown"
  /\ (forall channel me participant,
        In (EGetParticipant channel me (inl participant)) (calls run) ->
        instanceof_Creator participant = false ->
        instanceof_Admin participant = false ->
        currentRole ownershipCheck = "member"
        /\ isOwner ownershipCheck = false).
Proof.
  intros run Hres. subst run.
  destruct (check_cases u w) as
    [(channel & me & p & Hr & Hlog)
    |[(channel & me & e & Hr & _) | [[e Hr] _]]];
    cbv zeta in *; rewrite Hr in Hres; try discriminate.
  injection Hres as <-.
  split; [|split].
  - destruct p; simpl; auto.
  - destruct p; simpl; discriminate.
  - intros c m q Hin Hc Ha.
    destruct (Hlog _ _ _ Hin) as (_ & _ & [= <-]).
    unfold ownership_of. simpl. rewrite Hc, Ha. auto.
Qed.

(** C4, as the code has it.  When the participant lookup of the classifier
    fails (with the "not a participant" sentinel or with any other error),
    the classifier throws that error and returns no role; the
    check-ownership route then answers 500 with
    [{error, isOwner: false, currentRole: "error: " + message}]. *)
Theorem classifier_raises_lookup_error
    (req : Request) (w : W) (channel me : Entity) (e : JsError) :
  let channelUsername := field "channelUsername" (body req) in
  let run := checkChannelOwnership P env channelUsername w in
  In (EGetParticipant channel me (inr e)) (calls run) ->
  result run = inr e
  /\ (verifySecret env req = None ->
      truthy channelUsername = true ->
      result (api_check_ownership P env req w) =
        inl (mkResponse 500
               (JObj [("error", JStr (message e));
                      ("isOwner", JBool false);
                      ("currentRole", JStr ("error: " ++ message e)%string)]))).
Proof.
  intros channelUsername run Hin. subst run.
  assert (Hr : result (checkChannelOwnership P env channelUsername w) = inr e).
  { destruct (check_cases channelUsername w) as
      [(c & m & p & _ & Hlog)
      |[(c & m & e' & Hr & Hlog) | [_ Hlog]]]; cbv zeta in *.
    - destruct (Hlog _ _ _ Hin) as (_ & _ & [=]).
    - destruct (Hlog _ _ _ Hin) as (_ & _ & [= ->]). exact Hr.
    - destruct (Hlog _ _ _ Hin). }
  split; [exact Hr|].
  intros Hsecret Htruthy.
  unfold api_check_ownership, post. rewrite Hsecret.
  unfold check_ownership_handler. fold channelUsername. rewrite Htruthy.
  cbn [negb]. unfold try_catch, bind.
  destruct (checkChannelOwnership P env channelUsername w) as [r w' l].
  cbn [result after calls] in *. rewrite Hr. reflexivity.
Qed.

(** ** The membership gate *)

Ltac in_log H :=
  simpl in H;
  repeat (destruct H as [H|H]; try discriminate H);
  try contradiction.

(** C6, as the code has it.  When the participant lookup fails with the
    "not a participant" sentinel, the gate issues exactly one join request,
    for the resolved channel; it returns [{joined: true, alreadyMember:
    false}] when the platform accepts that request and throws the request's
    error when it does not.  When the lookup succeeds it returns
    [{joined: true, alreadyMember: true}] and issues no join request.  Any
    other lookup failure is thrown to the caller, and no join request is
    issued. *)
Theorem join_if_needed_dispatch (u : Json) (w : W) :
  let run := joinChannelIfNeeded P env u w in
  (forall channel me e,
      In (EGetParticipant channel me (inr e)) (calls run) ->
      is_not_participant e = true ->
      exists outcome,
        filter is_JoinChannel (calls run) = [EJoinChannel channel outcome]
        /\ result run =
             match outcome with
             | inl _ => inl (mkJoin true false)
             | inr rejected => inr rejected
             end)
  /\ (forall channel me participant,
      In (EGetParticipant channel me (inl participant)) (calls run) ->
      filter is_JoinChannel (calls run) = []
      /\ result run = inl (mkJoin true true))
  /\ (forall channel me e,
      In (EGetParticipant channel me (inr e)) (calls run) ->
      is_not_participant e = false ->
      filter is_JoinChannel (calls run) = []
      /\ result run = inr e).
Proof.
  unfold_run. run_cases.
  all: split; [|split].
  all: try (intros c m x H; in_log H; fail).
  all: try (intros c m x H Hs; in_log H; fail).
  all: intros c m x H; in_log H; injection H as <- <- <-.
  all: try (split; reflexivity).
  all: intros Hs; try congruence.
  all: try (split; reflexivity).
  all: eexists; split; reflexivity.
Qed.

(** ** The admin-rights revoker *)

Lemma revoked_app (l l' : list Event) :
  revoked (l ++ l') = revoked l ++ revoked l'.
Proof.
  induction l as [|e l IH]; simpl; auto.
  destruct e; auto. destruct target; auto. destruct r; auto.
  simpl. now rewrite IH.
Qed.

Lemma is_self_spec (p : Participant) (me : Entity) :
  is_self p me = true <-> userId p = Some (id me).
Proof.
  unfold is_self. destruct (userId p) as [k|]; [|split; discriminate].
  rewrite String.eqb_eq. split.
  - intros H. now rewrite (toString_inj _ _ H).
  - now intros [= ->].
Qed.

(** One pass of the loop over a listing: it never throws, it calls the
    platform once for every record it does not skip, in order, and it
    collects the identifiers whose call the platform accepted. *)
Lemma remove_loop_spec (channel me : Entity) (ps : list Participant) :
  forall (acc : list string) (w : W),
    let run := remove_loop P channel me ps acc w in
    result run = inl (acc ++ revoked (calls run))
    /\ edit_targets (calls run) = map userId (filter (not_skipped me) ps)
    /\ (edits_succeed (calls run) = true ->
        revoked (calls run) = map toString (qualifying me ps)).
Proof.
  induction ps as [|p ps IH]; intros acc w; cbn -[remove_loop].
  - simpl. rewrite app_nil_r. auto.
  - cbn [remove_loop filter qualifying]. unfold not_skipped at 1.
    destruct (instanceof_Creator p) eqn:Hc.
    { cbn [negb andb]. destruct (IH acc w) as (H1 & H2 & H3).
      repeat split; auto.
      destruct (userId p); auto. }
    destruct (is_self p me) eqn:Hs.
    { cbn [negb andb]. destruct (IH acc w) as (H1 & H2 & H3).
      repeat split; auto.
      apply is_self_spec in Hs. rewrite Hs.
      rewrite Z.eqb_refl. cbn [orb]. exact H3. }
    cbn [negb andb map].
    assert (Hq : qualifying me (p :: ps) =
                 match userId p with
                 | Some k => k :: qualifying me ps
                 | None => qualifying me ps
                 end).
    { cbn [qualifying]. rewrite Hc. destruct (userId p) as [k|] eqn:Hk; auto.
      destruct (Z.eqb_spec k (id me)) as [->|]; auto.
      assert (is_self p me = true) by now apply is_self_spec.
      congruence. }
    cbn [qualifying] in Hq. rewrite Hc in Hq. rewrite Hq. clear Hq.
    unfold bind, try_catch, invoke_EditAdmin, invoke, userId_toString.
    destruct (EditAdmin P channel (userId p) noRights "" w) as [[[]|e] w'];
      destruct (userId p) as [k|]; unfold ret, throw;
      cbn [result after calls app]; loop_IH IH;
      destruct Hrest as (H1 & H2 & H3); subst;
      cbn [revoked edit_targets edits_succeed map]; rewrite H2;
      repeat split; try discriminate; try exact H3.
    + now rewrite <- app_assoc.
    + intros Hok. now rewrite (H3 Hok).
Qed.

Lemma edit_targets_app (l l' : list Event) :
  edit_targets (l ++ l') = edit_targets l ++ edit_targets l'.
Proof.
  induction l as [|e l IH]; simpl; auto.
  destruct e; auto. simpl. now rewrite IH.
Qed.

Lemma edits_succeed_app (l l' : list Event) :
  edits_succeed (l ++ l') = edits_succeed l && edits_succeed l'.
Proof.
  induction l as [|e l IH]; simpl; auto.
  destruct e; auto. destruct r; auto.
Qed.

Lemma in_edit_targets (l : list Event) (channel : Entity) (t : option Z)
    (rights : ChatAdminRights) (rank : string) (o : Result unit) :
  In (EEditAdmin channel t rights rank o) l -> In t (edit_targets l).
Proof.
  induction l as [|e l IH]; simpl; auto.
  intros [-> | H]; [now left|].
  destruct e; auto. right. auto.
Qed.

(** Every call of the loop is a rights-edit on the resolved channel that
    clears every capability and the rank. *)
Lemma remove_loop_events (channel me : Entity) (ps : list Participant) :
  forall (acc : list string) (w : W) (e : Event),
    In e (calls (remove_loop P channel me ps acc w)) ->
    exists t o, e = EEditAdmin channel t noRights "" o.
Proof.
  induction ps as [|p ps IH]; intros acc w e; cbn [remove_loop].
  - intros [].
  - destruct (instanceof_Creator p); [apply IH|].
    destruct (is_self p me); [apply IH|].
    unfold bind, try_catch, invoke_EditAdmin, invoke, userId_toString.
    destruct (EditAdmin P channel (userId p) noRights "" w) as [[[]|x] w'];
      [destruct (userId p) as [k|]|]; unfold ret, throw;
      cbn [result after calls app];
      match goal with
      | |- context [remove_loop ?P ?c ?m ?l ?a ?v] =>
          pose proof (IH a v e) as Hrest;
          destruct (remove_loop P c m l a v) as [? ? ?];
          cbn [result after calls app] in *
      end;
      (intros [<- | H]; [eauto | auto]).
Qed.

(** The log of a revoker run: either the listing was obtained and the loop
    ran on it, or the run stopped before it and edited nothing. *)
Lemma remove_shape (u : Json) (w : W) :
  let run := removeAllOtherAdmins P env u w in
  (exists s channel me ps w',
      calls run =
        [EConnect (inl tt); EGetEntity s (inl channel); EGetMe (inl me);
         EGetParticipants channel 0 200 (inl ps)]
        ++ calls (remove_loop P channel me ps [] w') ++ [EDisconnect]
      /\ result run = result (remove_loop P channel me ps [] w'))
  \/ (edit_targets (calls run) = []
      /\ forall c o l ps, ~ In (EGetParticipants c o l (inl ps)) (calls run)).
Proof.
  unfold_run. call_cases.
  all: match goal with
       | |- context [remove_loop P ?c ?m ?l [] ?v] =>
           left; eexists; exists c, m, l, v;
           destruct (remove_loop P c m l [] v) as [[? | ?] ? ?];
           split; reflexivity
       | |- _ =>
           right; split; [reflexivity|];
           intros c o l ps H; in_log H
       end.
Qed.

(** C5. The revoker edits the rights of listed records only, never of a
    record of the creator kind and never of the escrow's own identifier,
    and every edit clears all capabilities and the rank.  On a listing it
    calls the platform once for each record it does not skip, whatever the
    earlier calls answered; it returns the identifiers whose call was
    accepted, so that a rejected call only leaves its identifier out; and
    when every call is accepted it returns the identifiers of the [N]
    qualifying administrators. *)
Theorem revoke_other_admins (u : Json) (w : W) :
  let run := removeAllOtherAdmins P env u w in
  (forall channel target rights rank outcome,
      In (EEditAdmin channel target rights rank outcome) (calls run) ->
      rights = noRights /\ rank = ""
      /\ exists me ps,
          In (EGetMe (inl me)) (calls run)
          /\ In (EGetParticipants channel 0 200 (inl ps)) (calls run)
          /\ (exists p, In p ps /\ userId p = target
                        /\ instanceof_Creator p = false)
          /\ target <> Some (id me))
  /\ (forall channel me ps,
      In (EGetMe (inl me)) (calls run) ->
      In (EGetParticipants channel 0 200 (inl ps)) (calls run) ->
      edit_targets (calls run) = map userId (filter (not_skipped me) ps)
      /\ result run = inl (revoked (calls run))
      /\ (edits_succeed (calls run) = true ->
          result run = inl (map toString (qualifying me ps))
          /\ List.length (map toString (qualifying me ps))
             = List.length (qualifying me ps))).
Proof.
  intros run. subst run.
  destruct (remove_shape u w) as
    [(s & c & m & l & w' & Hcalls & Hres) | [Hnone Hnolist]];
    cbv zeta in *.
  - destruct (remove_loop_spec c m l [] w') as (H1 & H2 & H3).
    cbv zeta in *.
    pose proof (remove_loop_events c m l [] w') as Hev.
    set (L := calls (remove_loop P c m l [] w')) in *.
    rewrite Hcalls, Hres. split.
    + intros channel target rights rank outcome Hin.
      cbn [app] in Hin.
      repeat (destruct Hin as [Hin|Hin]; try discriminate Hin).
      apply in_app_iff in Hin. destruct Hin as [Hin|Hin]; [|in_log Hin].
      destruct (Hev _ Hin) as (t & o & [= -> -> -> -> ->]).
      split; [reflexivity|]. split; [reflexivity|].
      exists m, l. split; [simpl; auto|]. split; [simpl; auto|].
      apply in_edit_targets in Hin. rewrite H2 in Hin.
      apply in_map_iff in Hin. destruct Hin as (p & Hp & Hin).
      apply filter_In in Hin. destruct Hin as [Hin Hskip].
      unfold not_skipped in Hskip. apply andb_true_iff in Hskip.
      destruct Hskip as [Hc Hs].
      apply negb_true_iff in Hc. apply negb_true_iff in Hs.
      split.
      * exists p. auto.
      * intros ->. apply is_self_spec in Hp. congruence.
    + intros channel me ps Hme Hlist.
      assert (Hm : me = m).
      { cbn [app] in Hme.
        repeat (destruct Hme as [Hme|Hme]; try discriminate Hme).
        - now injection Hme.
        - apply in_app_iff in Hme. destruct Hme as [Hme|Hme]; [|in_log Hme].
          destruct (Hev _ Hme) as (t & o & [=]). }
      assert (Hl : ps = l).
      { cbn [app] in Hlist.
        repeat (destruct Hlist as [Hlist|Hlist]; try discriminate Hlist).
        - now injection Hlist.
        - apply in_app_iff in Hlist.
          destruct Hlist as [Hlist|Hlist]; [|in_log Hlist].
          destruct (Hev _ Hlist) as (t & o & [=]). }
      subst me ps.
      assert (Ht : edit_targets
                     ([EConnect (inl tt); EGetEntity s (inl c);
                       EGetMe (inl m); EGetParticipants c 0 200 (inl l)]
                      ++ L ++ [EDisconnect]) = edit_targets L).
      { cbn [app edit_targets]. rewrite edit_targets_app. simpl.
        now rewrite app_nil_r. }
      assert (Hr : revoked
                     ([EConnect (inl tt); EGetEntity s (inl c);
                       EGetMe (inl m); EGetParticipants c 0 200 (inl l)]
                      ++ L ++ [EDisconnect]) = revoked L).
      { cbn [app revoked]. rewrite revoked_app. simpl.
        now rewrite app_nil_r. }
      assert (Hs : edits_succeed
                     ([EConnect (inl tt); EGetEntity s (inl c);
                       EGetMe (inl m); EGetParticipants c 0 200 (inl l)]
                      ++ L ++ [EDisconnect]) = edits_succeed L).
      { cbn [app edits_succeed]. rewrite edits_succeed_app. simpl.
        now rewrite andb_true_r. }
      rewrite Ht, Hr, Hs, H1, H2. cbn [app].
      split; [reflexivity|]. split; [reflexivity|].
      intros Hok. split; [now rewrite (H3 Hok) | apply length_map].
  - split.
    + intros channel target rights rank outcome Hin.
      apply in_edit_targets in Hin. rewrite Hnone in Hin. destruct Hin.
    + intros channel me ps _ Hlist. destruct (Hnolist _ _ _ _ Hlist).
Qed.

(** ** The gate in front of the routes *)

Lemma verifySecret_spec (req : Request) :
  (x_api_secret req = Some (API_SECRET env) -> verifySecret env req = None)
  /\ (x_api_secret req <> Some (API_SECRET env) ->
      verifySecret env req =
        Some (mkResponse 401 (JObj [("error", JStr "Unauthorized")]))).
Proof.
  unfold verifySecret, strict_neq.
  destruct (x_api_secret req) as [s|]; split; try discriminate; auto.
  - intros [= ->]. now rewrite String.eqb_refl.
  - intros Hne. destruct (String.eqb_spec s (API_SECRET env)); auto.
    subst. now destruct Hne.
Qed.

(** A transfer request that passes the gate with a falsy required field is
    answered 400 at once. *)
Lemma falsy_field_rejected (req : Request) (w : W) :
  verifySecret env req = None ->
  truthy (field "jobId" (body req)) = false
  \/ truthy (field "channelUsername" (body req)) = false
  \/ truthy (field "buyerUsername" (body req)) = false ->
  api_transfer_ownership P env req w =
    mkRun (inl (mkResponse 400 required_fields)) w [].
Proof.
  intros Hsecret Hfalsy.
  unfold api_transfer_ownership, post. rewrite Hsecret.
  unfold transfer_ownership_handler.
  destruct Hfalsy as [-> | [-> | ->]]; cbn [negb orb];
    rewrite ?orb_true_r; reflexivity.
Qed.

(** C8, as the code has it.  A POST request whose body does not parse is
    answered 500 by the error middleware, before the secret is looked at.
    A POST request whose body parses and whose secret header is absent or
    differs from the configured secret is answered 401
    [{error: "Unauthorized"}] on every route, whatever its body.  A
    transfer request whose body parses, that carries the configured secret
    and lacks a required field is answered 400.  In the three cases no call
    is made and the world is untouched. *)
Theorem validation_and_auth_short_circuit (http : HttpRequest) (w : W) :
  (forall err,
      payload http = inr err ->
      let failed :=
        mkRun
          (inl (mkResponse 500
             (JObj [("error", JStr "Internal server error");
                    ("message", JStr (message err))])))
          w [] in
      served (api_transfer_ownership P env) http w = failed
      /\ served (api_check_ownership P env) http w = failed
      /\ served (api_join_channel P env) http w = failed
      /\ served (api_transfer_ownership_v1 P env) http w = failed)
  /\ (forall fields,
      payload http = inl fields ->
      http_x_api_secret http <> Some (API_SECRET env) ->
      let unauthorized :=
        mkRun (inl (mkResponse 401 (JObj [("error", JStr "Unauthorized")])))
              w [] in
      served (api_transfer_ownership P env) http w = unauthorized
      /\ served (api_check_ownership P env) http w = unauthorized
      /\ served (api_join_channel P env) http w = unauthorized
      /\ served (api_transfer_ownership_v1 P env) http w = unauthorized)
  /\ (forall fields,
      payload http = inl fields ->
      http_x_api_secret http = Some (API_SECRET env) ->
      field "jobId" fields = JUndefined
      \/ field "channelUsername" fields = JUndefined
      \/ field "buyerUsername" fields = JUndefined ->
      let rejected :=
        mkRun
          (inl (mkResponse 400
             (JObj [("error",
                     JStr "jobId, channelUsername, and buyerUsername are required")])))
          w [] in
      served (api_transfer_ownership P env) http w = rejected
      /\ served (api_transfer_ownership_v1 P env) http w = rejected).
Proof.
  unfold served, express_json. cbv zeta. split; [|split].
  - intros err Hp. rewrite Hp. repeat split.
  - intros fields Hp Hsecret. rewrite Hp.
    destruct (verifySecret_spec (mkRequest (http_x_api_secret http) fields))
      as [_ Hstop].
    unfold api_transfer_ownership, api_check_ownership, api_join_channel,
      api_transfer_ownership_v1, post.
    rewrite (Hstop Hsecret). repeat split.
  - intros fields Hp Hsecret Hmissing. rewrite Hp.
    destruct (verifySecret_spec (mkRequest (http_x_api_secret http) fields))
      as [Hpass _].
    split.
    + apply falsy_field_rejected; [auto|].
      cbn [body]. destruct Hmissing as [-> | [-> | ->]]; auto.
    + unfold api_transfer_ownership_v1, post. rewrite (Hpass Hsecret).
      unfold transfer_ownership_handler_v1. cbn [body].
      destruct Hmissing as [-> | [-> | ->]]; cbn [truthy negb orb];
        rewrite ?orb_true_r; reflexivity.
Qed.

(** ** The three-step orchestrator *)


(** * Further properties of the operations *)

(** ** Sessions *)

Lemma session_scan_app (s : Session) (l l' : list Event) :
  session_scan s (l ++ l') =
    match session_scan s l with
    | Some s' => session_scan s' l'
    | None => None
    end.
Proof.
  revert s. induction l as [|e l IH]; intros s; simpl; auto.
  destruct (session_step s e); auto.
Qed.

Lemma session_scan_edits (l : list Event) :
  forallb is_EditAdmin l = true ->
  session_scan (Opened true) l = Some (Opened true).
Proof.
  induction l as [|e l IH]; simpl; auto.
  rewrite andb_true_iff. intros [He Hl].
  destruct e; try discriminate He. simpl. auto.
Qed.

Ltac loop_edits :=
  match goal with
  | H : remove_loop _ ?c ?m ?ps ?acc ?w = _ |- _ =>
      let Hedits := fresh "Hedits" in
      pose proof (remove_loop_only_edits c m ps acc w) as Hedits;
      rewrite H in Hedits; cbn [calls] in Hedits
  end.

Lemma join_closes_session (u : Json) (w : W) :
  session_scan Closed (calls (joinChannelIfNeeded P env u w)) = Some Closed.
Proof. unfold_run; run_cases; reflexivity. Qed.

Lemma check_closes_session (u : Json) (w : W) :
  session_scan Closed (calls (checkChannelOwnership P env u w)) = Some Closed.
Proof. unfold_run; run_cases; reflexivity. Qed.

Lemma remove_closes_session (u : Json) (w : W) :
  session_scan Closed (calls (removeAllOtherAdmins P env u w)) = Some Closed.
Proof.
  unfold_run; run_cases; try reflexivity.
  all: loop_edits.
  all: rewrite session_scan_app, (session_scan_edits _ Hedits); reflexivity.
Qed.

Lemma transfer_closes_session (u b : Json) (w : W) :
  session_scan Closed (calls (transferChannelOwnership P env u b w))
    = Some Closed.
Proof. unfold_run; run_cases; reflexivity. Qed.

Lemma leave_closes_session (u : Json) (w : W) :
  session_scan Closed (calls (leaveChannel P env u w)) = Some Closed.
Proof. unfold_run; run_cases; reflexivity. Qed.

(** Each of the five operations keeps the session discipline: every call
    it makes on the platform lies between a [connect] that succeeded and
    the [disconnect] that follows it, no session is opened inside another,
    and the session it opened is closed when it returns or throws. *)
Theorem operations_close_their_session (u b : Json) (w : W) :
  session_scan Closed (calls (joinChannelIfNeeded P env u w)) = Some Closed
  /\ session_scan Closed (calls (checkChannelOwnership P env u w))
       = Some Closed
  /\ session_scan Closed (calls (removeAllOtherAdmins P env u w))
       = Some Closed
  /\ session_scan Closed (calls (transferChannelOwnership P env u b w))
       = Some Closed
  /\ session_scan Closed (calls (leaveChannel P env u w)) = Some Closed.
Proof.
  auto using join_closes_session, check_closes_session,
    remove_closes_session, transfer_closes_session, leave_closes_session.
Qed.

(** ** A missing session string *)

(** Without a session string no client is created: each operation throws
    the [TypeError] of [undefined.trim()] at once, with no call made (not
    even [disconnect]) and the world as it was. *)
Theorem no_session_string_no_call (u b : Json) (w : W) :
  TELEGRAM_ADMIN_SESSION_STRING env = None ->
  let thrown {A} : Run W A :=
    mkRun (inr (TypeError "Cannot read properties of undefined (reading 'trim')"))
          w [] in
  joinChannelIfNeeded P env u w = thrown
  /\ checkChannelOwnership P env u w = thrown
  /\ removeAllOtherAdmins P env u w = thrown
  /\ transferChannelOwnership P env u b w = thrown
  /\ leaveChannel P env u w = thrown.
Proof.
  intros Hnone thrown. subst thrown.
  unfold_run. rewrite Hnone. repeat split.
Qed.

(** ** Handles *)

Lemma normalize_sigil (r s : string) :
  (forall rest, s <> String "@" rest) ->
  normalize (W := W) r (JStr (String "@" s)) = normalize r (JStr s).
Proof.
  intros Hs. unfold normalize.
  destruct s as [|[[] [] [] [] [] [] [] []] rest]; try reflexivity.
  destruct (Hs rest). reflexivity.
Qed.

(** A handle with the [@] sigil and the same handle without it are the
    same input to every operation, provided the bare handle does not itself
    begin with [@]. *)
Theorem sigil_is_optional (s t : string) (w : W) :
  (forall rest, s <> String "@" rest) ->
  (forall rest, t <> String "@" rest) ->
  joinChannelIfNeeded P env (JStr (String "@" s)) w
    = joinChannelIfNeeded P env (JStr s) w
  /\ checkChannelOwnership P env (JStr (String "@" s)) w
       = checkChannelOwnership P env (JStr s) w
  /\ removeAllOtherAdmins P env (JStr (String "@" s)) w
       = removeAllOtherAdmins P env (JStr s) w
  /\ leaveChannel P env (JStr (String "@" s)) w
       = leaveChannel P env (JStr s) w
  /\ transferChannelOwnership P env (JStr (String "@" s))
         (JStr (String "@" t)) w
       = transferChannelOwnership P env (JStr s) (JStr t) w.
Proof.
  intros Hs Ht.
  unfold joinChannelIfNeeded, checkChannelOwnership, removeAllOtherAdmins,
    leaveChannel, transferChannelOwnership.
  rewrite !(normalize_sigil _ s Hs), (normalize_sigil _ t Ht).
  repeat split.
Qed.

Lemma normalize_outcome (r : string) (u : Json) (w : W) :
  (exists s, normalize r u w = mkRun (inl s) w []) \/
  (exists msg, normalize r u w = mkRun (inr (TypeError msg)) w []).
Proof.
  destruct u as [ | | b | n | s | l | f]; unfold normalize, ret, throw; eauto.
  destruct s as [|[[] [] [] [] [] [] [] []] rest]; eauto.
Qed.

Lemma normalize_not_string (r : string) (u : Json) (w : W) :
  (forall s, u <> JStr s) ->
  exists msg, normalize r u w = mkRun (inr (TypeError msg)) w [].
Proof.
  intros Hu. destruct u; unfold normalize, throw; eauto.
  destruct (Hu s). reflexivity.
Qed.

(** A username that is not a string makes each operation throw, and
    never lets it call the platform: when the client was constructed the
    operation connects, throws a [TypeError] (no platform error code) on
    the username and disconnects; when the construction of the client threw
    it calls nothing at all. *)
Theorem non_string_username_only_connects (u b : Json) (w : W) :
  (forall s, u <> JStr s) ->
  let opened :=
    match new_client P env with
    | inl _ => [EConnect (fst (connect P w)); EDisconnect]
    | inr _ => []
    end in
  let failed {A} (run : Run W A) :=
    calls run = opened
    /\ exists e, result run = inr e
                 /\ (new_client P env = inl tt ->
                     fst (connect P w) = inl tt -> errorMessage e = None) in
  failed (joinChannelIfNeeded P env u w)
  /\ failed (checkChannelOwnership P env u w)
  /\ failed (removeAllOtherAdmins P env u w)
  /\ failed (leaveChannel P env u w)
  /\ failed (transferChannelOwnership P env u b w)
  /\ failed (transferChannelOwnership P env b u w).
Proof.
  intros Hu opened failed. subst opened failed. cbv beta.
  assert (Hfail : forall r w', exists msg,
             normalize r u w' = mkRun (inr (TypeError msg)) w' [])
    by (intros r w'; now apply normalize_not_string).
  unfold joinChannelIfNeeded, checkChannelOwnership, removeAllOtherAdmins,
    leaveChannel, transferChannelOwnership, with_client.
  destruct (new_client P env) as [[]|failure].
  2:{ unfold throw. cbn.
      repeat split; eexists; (split; [reflexivity|]); discriminate. }
  unfold try_finally, bind, client_connect, client_disconnect, invoke.
  repeat split;
    destruct (connect P w) as [[[]|e] w']; cbn -[normalize];
    try (eexists; split; [reflexivity | intros _ H; discriminate H]);
    try (destruct (normalize_outcome "channelUsername" b w')
           as [[s ->] | [m ->]]; cbn -[normalize]);
    try (destruct (Hfail "channelUsername" w') as [msg ->]; cbn);
    try (destruct (Hfail "buyerUsername" w') as [msg ->]; cbn);
    try reflexivity;
    eexists; split; reflexivity.
Qed.

Lemma normalize_world (r : string) (x : Json) (w1 w2 : W) :
  result (normalize r x w1) = result (normalize r x w2).
Proof.
  destruct x as [ | | b | n | s | l | f]; try reflexivity.
  destruct s as [|[[] [] [] [] [] [] [] []] rest]; reflexivity.
Qed.

(** ** The creator handoff *)

(** The handoff issues at most one creator-edit call.  When it issues one,
    the channel and the buyer are what the two normalised handles resolved
    to, the proof is what [computeCheck] made of the configured two-factor
    password and of the password configuration fetched in the same session,
    and the outcome of the call is the outcome of the handoff. *)
Theorem handoff_uses_fresh_proof
    (u b : Json) (w : W) (channel buyer : Entity)
    (password : PasswordCheck) (outcome : Result unit) :
  let run := transferChannelOwnership P env u b w in
  In (EEditCreator channel buyer password outcome) (calls run) ->
  filter is_EditCreator (calls run)
    = [EEditCreator channel buyer password outcome]
  /\ result run = outcome
  /\ exists hc hb srp,
       result (normalize "channelUsername" u w) = inl hc
       /\ result (normalize "buyerUsername" b w) = inl hb
       /\ In (EGetEntity hc (inl channel)) (calls run)
       /\ In (EGetEntity hb (inl buyer)) (calls run)
       /\ In (EGetPassword (inl srp)) (calls run)
       /\ In (EComputeCheck srp (TELEGRAM_ADMIN_2FA_PASSWORD env)
                (inl password)) (calls run).
Proof.
  intros run. subst run.
  set (nu := result (normalize "channelUsername" u w)).
  set (nb := result (normalize "buyerUsername" b w)).
  unfold_run. run_cases; intros H; in_log H.
  all: injection H as <- <- <- <-.
  all: split; [reflexivity|]; split; [reflexivity|].
  all: subst nu nb;
       repeat match goal with
       | Hn : normalize ?r ?x ?v = mkRun (inl _) _ _ |- _ =>
           rewrite (normalize_world r x w v), Hn; clear Hn
       end.
  all: do 3 eexists; repeat split; simpl; eauto 10.
Qed.

(** When the two-factor password cannot be turned into a proof, or any
    earlier step of the handoff fails, no creator-edit call is issued and
    the handoff throws. *)
Theorem handoff_needs_every_step (u b : Json) (w : W) :
  let run := transferChannelOwnership P env u b w in
  (exists r, In (EConnect (inr r)) (calls run))
  \/ (exists h r, In (EGetEntity h (inr r)) (calls run))
  \/ (exists r, In (EGetPassword (inr r)) (calls run))
  \/ (exists srp pw r, In (EComputeCheck srp pw (inr r)) (calls run)) ->
  absent is_EditCreator (calls run)
  /\ exists e, result run = inr e.
Proof.
  unfold_run. run_cases; intros H.
  all: try (split; [reflexivity | eexists; reflexivity]).
  all: exfalso;
       destruct H as [[r H] | [(h & r & H) | [[r H] | (srp & pw & r & H)]]];
       in_log H.
Qed.

(** ** Leaving *)

(** Leaving issues at most one leave call; it returns [{left: true}]
    exactly when the platform accepted that call and throws the platform's
    error when it was rejected. *)
Theorem leave_follows_the_platform (u : Json) (w : W) :
  let run := leaveChannel P env u w in
  (forall channel outcome,
      In (ELeaveChannel channel outcome) (calls run) ->
      filter is_LeaveChannel (calls run) = [ELeaveChannel channel outcome]
      /\ result run =
           match outcome with
           | inl _ => inl (mkLeave true)
           | inr e => inr e
           end)
  /\ (forall leaveResult,
      result run = inl leaveResult ->
      leaveResult = mkLeave true
      /\ exists channel, In (ELeaveChannel channel (inl tt)) (calls run)).
Proof.
  unfold_run. run_cases; split.
  all: try (intros c o H; in_log H; injection H as <- <-;
            split; reflexivity).
  all: intros lr H; try discriminate H.
  injection H as <-. split; [reflexivity|].
  eexists. simpl. eauto.
Qed.

(** ** The classifier's result *)

(** In every result the classifier returns, [isOwner] is true exactly when
    [currentRole] is "creator", [channelId] is the decimal form of the
    identifier of the resolved channel and [channelTitle] is its title;
    [participantType] is "VirtualClass" whatever record the platform
    returned, so it does not tell the kinds of record apart. *)
Theorem classifier_result_is_coherent
    (u : Json) (w : W) (ownershipCheck : OwnershipCheck) :
  let run := checkChannelOwnership P env u w in
  result run = inl ownershipCheck ->
  (isOwner ownershipCheck = true <-> currentRole ownershipCheck = "creator")
  /\ participantType ownershipCheck = "VirtualClass"
  /\ exists handle channel me participant,
       In (EGetEntity handle (inl channel)) (calls run)
       /\ In (EGetParticipant channel me (inl participant)) (calls run)
       /\ channelId ownershipCheck = toString (id channel)
       /\ channelTitle ownershipCheck = title channel.
Proof.
  unfold_run. run_cases; intros H; try discriminate H.
  injection H as <-. split; [|split].
  - destruct p; simpl; split; auto; discriminate.
  - reflexivity.
  - do 4 eexists. simpl. repeat split; eauto 10.
Qed.

(** ** What the revoker returns *)

(** Every identifier the revoker returns is the printed user identifier of
    a listed record that is not of the creator kind and is not the
    escrow's own, and it returns no more identifiers than records were
    listed. *)
Theorem revoker_returns_listed_admins
    (u : Json) (w : W) (removedAdmins : list string) :
  let run := removeAllOtherAdmins P env u w in
  result run = inl removedAdmins ->
  exists channel me ps,
    In (EGetMe (inl me)) (calls run)
    /\ In (EGetParticipants channel 0 200 (inl ps)) (calls run)
    /\ (List.length removedAdmins <= List.length ps)%nat
    /\ forall s, In s removedAdmins ->
         exists p k, In p ps /\ userId p = Some k /\ s = toString k
                     /\ instanceof_Creator p = false /\ k <> id me.
Proof.
  intros run Hres. subst run.
  destruct (remove_shape u w) as
    [(h & c & m & l & w' & Hcalls & Hresult) | [Hnone Hnolist]];
    cbv zeta in *.
  2:{ exfalso. revert Hres Hnolist. unfold_run. call_cases;
        try discriminate.
      all: try (intros _ Hno; eapply Hno; simpl; eauto 10; fail).
      all: match goal with
           | |- context [remove_loop P ?c ?m ?l [] ?v] =>
               destruct (remove_loop P c m l [] v) as [[? | ?] ? ?]
           end; cbn; try discriminate.
      all: intros _ Hno; eapply Hno; simpl; eauto 10. }
  destruct (remove_loop_spec c m l [] w') as (H1 & H2 & _). cbv zeta in *.
  pose proof (remove_loop_events c m l [] w') as Hev.
  set (L := calls (remove_loop P c m l [] w')) in *.
  rewrite Hresult, H1 in Hres. cbn [app] in Hres. injection Hres as <-.
  exists c, m, l. rewrite Hcalls.
  split; [simpl; auto|]. split; [simpl; auto|].
  assert (Hsub : forall s, In s (revoked L) ->
            exists k, In (Some k) (edit_targets L) /\ s = toString k).
  { clear. induction L as [|e L IH]; simpl; [intros s []|].
    intros s Hs. destruct e; try (destruct (IH s Hs) as (k & ? & ?); eauto; fail).
    destruct target as [k|]; [destruct r|];
      simpl in *.
    - destruct Hs as [<- | Hs]; [eauto|].
      destruct (IH s Hs) as (k' & ? & ?); eauto.
    - destruct (IH s Hs) as (k' & ? & ?); eauto.
    - destruct (IH s Hs) as (k' & ? & ?); eauto. }
  assert (Hlen : (List.length (revoked L) <= List.length (edit_targets L))%nat).
  { clear. induction L as [|e L IH]; simpl; auto.
    destruct e; auto. destruct target; [destruct r|]; simpl;
      auto using le_n_S, le_S. }
  split.
  - eapply Nat.le_trans; [exact Hlen|]. rewrite H2, length_map.
    apply filter_length_le.
  - intros s Hs. destruct (Hsub s Hs) as (k & Hk & ->).
    rewrite H2 in Hk. apply in_map_iff in Hk.
    destruct Hk as (p & Hp & Hin). apply filter_In in Hin.
    destruct Hin as [Hin Hskip]. unfold not_skipped in Hskip.
    apply andb_true_iff in Hskip. destruct Hskip as [Hc Hself].
    apply negb_true_iff in Hc. apply negb_true_iff in Hself.
    exists p, k. repeat split; auto.
    intros ->. assert (is_self p m = true) by now apply is_self_spec.
    congruence.
Qed.

(** ** The shared secret *)

(** A request without the secret header never passes the gate, whatever
    the configuration; and when the environment sets no secret, or an
    empty one, the gate accepts exactly the placeholder
    "change-me-in-production". *)
Theorem gate_accepts_the_configured_secret (req : Request) :
  (x_api_secret req = None -> verifySecret env req <> None)
  /\ (env_API_SECRET env = None \/ env_API_SECRET env = Some "" ->
      (verifySecret env req = None <->
       x_api_secret req = Some "change-me-in-production"))
  /\ (forall secret, env_API_SECRET env = Some secret -> secret <> "" ->
      (verifySecret env req = None <-> x_api_secret req = Some secret)).
Proof.
  unfold verifySecret, strict_neq, API_SECRET, or_default.
  split; [|split].
  - intros ->. discriminate.
  - intros [-> | ->]; cbn;
      (destruct (x_api_secret req) as [s|]; [|split; discriminate]);
      destruct (String.eqb_spec s "change-me-in-production");
      cbn; split; intros H; try discriminate H; try congruence.
  - intros secret -> Hne. apply String.eqb_neq in Hne. rewrite Hne.
    destruct (x_api_secret req) as [s|]; [|split; discriminate].
    destruct (String.eqb_spec s secret); cbn; split; intros H;
      try discriminate H; try congruence.
Qed.

(** * Further properties of the routes *)

(** The five-step handler, opened step by step: one goal for each place
    where a run can end. *)
Ltac open_transfer req w :=
  unfold api_transfer_ownership, post;
  destruct (verifySecret env req) as [res|] eqn:Hsecret;
  [ | unfold transfer_ownership_handler;
      destruct (negb (truthy (field "jobId" (body req)))
                || negb (truthy (field "channelUsername" (body req)))
                || negb (truthy (field "buyerUsername" (body req))))
        eqn:Hfields;
      [ | unfold try_catch, bind, ret;
          destruct (joinChannelIfNeeded P env
                      (field "channelUsername" (body req)) w)
            as [[jr|ej] w1 l1] eqn:Hj;
          [ destruct (checkChannelOwnership P env
                        (field "channelUsername" (body req)) w1)
              as [[oc|ec] w2 l2] eqn:Hc;
            [ destruct (isOwner oc) eqn:Hown; cbn [negb];
              [ destruct (removeAllOtherAdmins P env
                            (field "channelUsername" (body req)) w2)
                  as [[removed|er] w3 l3] eqn:Hr;
                [ destruct (transferChannelOwnership P env
                              (field "channelUsername" (body req))
                              (field "buyerUsername" (body req)) w3)
                    as [[[]|et] w4 l4] eqn:Ht;
                  [ destruct (leaveChannel P env
                                (field "channelUsername" (body req)) w4)
                      as [[lr|el] w5 l5] eqn:Hl | ] | ] | ] | ] | ] ] ];
  cbn [result after calls]; rewrite ?app_nil_r.

(** The three-step handler, opened in the same way. *)
Ltac open_transfer_v1 req w :=
  unfold api_transfer_ownership_v1, post;
  destruct (verifySecret env req) as [res|] eqn:Hsecret;
  [ | unfold transfer_ownership_handler_v1;
      destruct (negb (truthy (field "jobId" (body req)))
                || negb (truthy (field "channelUsername" (body req)))
                || negb (truthy (field "buyerUsername" (body req))))
        eqn:Hfields;
      [ | unfold try_catch, bind, ret, query;
          destruct (checkChannelOwnership P env
                      (field "channelUsername" (body req)) w)
            as [[oc|ec] w2 l2] eqn:Hc;
          [ destruct (isOwner oc) eqn:Hown; cbn [negb];
            [ destruct (transferChannelOwnership P env
                          (field "channelUsername" (body req))
                          (field "buyerUsername" (body req)) w2)
                as [[[]|et] w4 l4] eqn:Ht;
              [ destruct (jobs_update P (field "jobId" (body req))
                            (toISOString P w4) w4) as [updated w5] eqn:Hu;
                destruct (jobs_select P (field "jobId" (body req)) w5)
                  as [selected w6] eqn:Hsel;
                destruct (truthy (data selected)) eqn:Hjob;
                [ destruct (listings_update P
                              (prop "listing_id" (data selected)) w6)
                    as [listing w7] eqn:Hlist | ] | ] | ] | ] ] ];
  cbn [result after calls]; rewrite ?app_nil_r.

Ltac step_facts :=
  repeat match goal with
  | H : joinChannelIfNeeded P env ?u ?w = mkRun _ _ ?l |- _ =>
      lazymatch goal with
      | _ : absent mutating l |- _ => fail
      | _ => let N := fresh "Nj" in
             pose proof (join_no_mutating u w) as N;
             rewrite H in N; cbn [calls] in N
      end
  | H : checkChannelOwnership P env ?u ?w = mkRun _ _ ?l |- _ =>
      lazymatch goal with
      | _ : absent mutating l |- _ => fail
      | _ => let N := fresh "Nc" in
             pose proof (check_no_mutating u w) as N;
             rewrite H in N; cbn [calls] in N
      end
  end.

(** ** Sessions across a request *)

Ltac session_facts :=
  repeat match goal with
  | H : joinChannelIfNeeded P env ?u ?w = mkRun _ _ ?l |- _ =>
      let N := fresh "Sj" in
      pose proof (join_closes_session u w) as N;
      rewrite H in N; cbn [calls] in N; revert H
  | H : checkChannelOwnership P env ?u ?w = mkRun _ _ ?l |- _ =>
      let N := fresh "Sc" in
      pose proof (check_closes_session u w) as N;
      rewrite H in N; cbn [calls] in N; revert H
  | H : removeAllOtherAdmins P env ?u ?w = mkRun _ _ ?l |- _ =>
      let N := fresh "Sr" in
      pose proof (remove_closes_session u w) as N;
      rewrite H in N; cbn [calls] in N; revert H
  | H : transferChannelOwnership P env ?u ?b ?w = mkRun _ _ ?l |- _ =>
      let N := fresh "St" in
      pose proof (transfer_closes_session u b w) as N;
      rewrite H in N; cbn [calls] in N; revert H
  | H : leaveChannel P env ?u ?w = mkRun _ _ ?l |- _ =>
      let N := fresh "Sl" in
      pose proof (leave_closes_session u w) as N;
      rewrite H in N; cbn [calls] in N; revert H
  end; intros.

Ltac scan_sessions :=
  session_facts;
  repeat (rewrite session_scan_app;
          match goal with
          | H : session_scan Closed ?l = Some Closed |- context [session_scan Closed ?l] =>
              rewrite H
          end);
  try assumption; try reflexivity.

(** No session is held across the steps of a request: on every route, and
    however the run ends, the log is a sequence of sessions, each opened
    and closed by one operation, with the calls on the ledger made between
    sessions; when the response is sent no session is open. *)
Theorem routes_hold_no_session (req : Request) (w : W) :
  session_scan Closed (calls (api_join_channel P env req w)) = Some Closed
  /\ session_scan Closed (calls (api_check_ownership P env req w))
       = Some Closed
  /\ session_scan Closed (calls (api_transfer_ownership P env req w))
       = Some Closed
  /\ session_scan Closed (calls (api_transfer_ownership_v1 P env req w))
       = Some Closed.
Proof.
  split; [|split; [|split]].
  - unfold api_join_channel, post.
    destruct (verifySecret env req); [reflexivity|].
    unfold join_channel_handler.
    destruct (negb (truthy (field "channelUsername" (body req))));
      [reflexivity|].
    unfold try_catch, bind, ret.
    destruct (joinChannelIfNeeded P env _ w) as [[jr|ej] w1 l1] eqn:Hj;
      cbn [calls]; rewrite ?app_nil_r; scan_sessions.
  - unfold api_check_ownership, post.
    destruct (verifySecret env req); [reflexivity|].
    unfold check_ownership_handler.
    destruct (negb (truthy (field "channelUsername" (body req))));
      [reflexivity|].
    unfold try_catch, bind, ret.
    destruct (checkChannelOwnership P env _ w) as [[oc|ec] w1 l1] eqn:Hc;
      cbn [calls]; rewrite ?app_nil_r; scan_sessions.
  - open_transfer req w; try reflexivity; scan_sessions.
  - open_transfer_v1 req w; try reflexivity; scan_sessions.
Qed.

(** ** The ownership gate *)

Lemma check_owner_record (u : Json) (w w' : W) (l : list Event)
    (oc : OwnershipCheck) :
  checkChannelOwnership P env u w = mkRun (inl oc) w' l ->
  isOwner oc = true ->
  exists channel me uid,
    In (EGetParticipant channel me (inl (ChannelParticipantCreator uid))) l.
Proof.
  unfold_run. run_cases; intros H; try discriminate H.
  injection H as <- <- <-. destruct p; simpl; try discriminate.
  intros _. do 3 eexists. eauto 10.
Qed.

Lemma transfer_no_ledger (u b : Json) (w : W) :
  absent is_ledger (calls (transferChannelOwnership P env u b w)).
Proof. unfold absent. unfold_run. run_cases; reflexivity. Qed.

Lemma check_no_ledger (u : Json) (w : W) :
  absent is_ledger (calls (checkChannelOwnership P env u w)).
Proof. unfold absent. unfold_run. run_cases; reflexivity. Qed.

Lemma check_no_EditCreator (u : Json) (w : W) :
  absent is_EditCreator (calls (checkChannelOwnership P env u w)).
Proof. unfold absent. unfold_run. run_cases; reflexivity. Qed.

Ltac stop_before pred H :=
  exfalso; revert H;
  apply absent_no_split with (p := pred);
  [repeat (apply absent_app; split); assumption | assumption].

(** In every run of the five-step route, a rights-edit, creator-edit or
    leave call is made only after the participant lookup of that run has
    returned a record of the creator kind for the escrow. *)
Theorem transfer_mutates_only_as_creator
    (req : Request) (w : W) (pre later : list Event) (e : Event) :
  calls (api_transfer_ownership P env req w) = pre ++ e :: later ->
  mutating e = true ->
  exists channel me uid,
    In (EGetParticipant channel me (inl (ChannelParticipantCreator uid))) pre.
Proof.
  intros Hlog He. revert Hlog.
  open_transfer req w; step_facts.
  1,2: intros H; destruct pre; discriminate H.
  7: intros H; stop_before mutating H.
  6: intros H; stop_before mutating H.
  5: intros H; stop_before mutating H.
  all: destruct (check_owner_record _ _ _ _ _ Hc Hown)
         as (channel & me & uid & Hrec);
       rewrite app_assoc; intros H;
       apply split_past_absent with (p := mutating) in H;
       [ | apply absent_app; split; assumption | assumption ];
       destruct H as (mid & -> & _);
       exists channel, me, uid; rewrite !in_app_iff; auto.
Qed.

(** In every run of the three-step route, the creator-edit call is made
    only after the participant lookup has returned a record of the creator
    kind, and a call on the ledger is made only after a creator-edit call
    that the platform accepted. *)
Theorem transfer_v1_order
    (req : Request) (w : W) (pre later : list Event) (e : Event) :
  calls (api_transfer_ownership_v1 P env req w) = pre ++ e :: later ->
  (is_EditCreator e = true ->
   exists channel me uid,
     In (EGetParticipant channel me (inl (ChannelParticipantCreator uid)))
        pre)
  /\ (is_ledger e = true ->
      exists channel buyer password,
        In (EEditCreator channel buyer password (inl tt)) pre).
Proof.
  intros Hlog.
  pose proof (check_no_EditCreator (field "channelUsername" (body req)) w)
    as Nc.
  pose proof (check_no_ledger (field "channelUsername" (body req)) w) as Lc.
  revert Hlog Nc Lc.
  open_transfer_v1 req w; intros Hlog Nc Lc.
  1,2: destruct pre; discriminate Hlog.
  4,5: split; intros He;
       [stop_before is_EditCreator Hlog | stop_before is_ledger Hlog].
  all: pose proof (transfer_no_ledger (field "channelUsername" (body req))
                     (field "buyerUsername" (body req)) w2) as Lt;
       rewrite Ht in Lt; cbn [calls] in Lt.
  all: split; intros He.
  (* the creator-edit call lies past the check *)
  1,3,5: destruct (check_owner_record _ _ _ _ _ Hc Hown)
           as (channel & me & uid & Hrec);
         apply split_past_absent with (p := is_EditCreator) in Hlog;
         [ | assumption | assumption ];
         destruct Hlog as (mid & -> & _);
         exists channel, me, uid; rewrite !in_app_iff; auto.
  (* a ledger call lies past the handoff *)
  3: stop_before is_ledger Hlog.
  all: destruct (transfer_returns_after_EditCreator
                   (field "channelUsername" (body req))
                   (field "buyerUsername" (body req)) w2)
         as (c & buyer & password & Hin);
       [ now rewrite Ht | rewrite Ht in Hin; cbn [calls] in Hin ];
       rewrite app_assoc in Hlog;
       apply split_past_absent with (p := is_ledger) in Hlog;
       [ | apply absent_app; split; assumption | assumption ];
       destruct Hlog as (mid & -> & _);
       exists c, buyer, password; rewrite !in_app_iff; auto.
Qed.

(** ** Failures along the five steps *)




(** ** The ledger in the three-step route *)



(** ** Required fields *)

Lemma falsy_values_spec (v : Json) :
  In v falsy_values <-> truthy v = false.
Proof.
  unfold falsy_values. split.
  - intros H. simpl in H.
    repeat (destruct H as [<- | H]; [reflexivity|]). destruct H.
  - destruct v as [ | | [] | n | s | l | f]; simpl; auto 10;
      try discriminate.
    + destruct n; simpl; auto 10; discriminate.
    + destruct s; simpl; auto 10; discriminate.
Qed.

(** A required field counts as missing when its value is falsy: absent,
    [null], [false], [0] or the empty string.  An authenticated transfer
    request with such a [jobId], [channelUsername] or [buyerUsername] is
    answered 400 by both transfer routes, and an authenticated request
    with such a [channelUsername] is answered 400 by the join and the check
    routes; no call is made. *)
Theorem falsy_fields_count_as_missing (req : Request) (w : W) :
  x_api_secret req = Some (API_SECRET env) ->
  (In (field "jobId" (body req)) falsy_values
   \/ In (field "channelUsername" (body req)) falsy_values
   \/ In (field "buyerUsername" (body req)) falsy_values ->
   let rejected :=
     mkRun
       (inl (mkResponse 400
          (JObj [("error",
                  JStr "jobId, channelUsername, and buyerUsername are required")])))
       w [] in
   api_transfer_ownership P env req w = rejected
   /\ api_transfer_ownership_v1 P env req w = rejected)
  /\ (In (field "channelUsername" (body req)) falsy_values ->
      let rejected :=
        mkRun
          (inl (mkResponse 400
             (JObj [("error", JStr "channelUsername is required")])))
          w [] in
      api_join_channel P env req w = rejected
      /\ api_check_ownership P env req w = rejected).
Proof.
  intros Hsecret.
  apply (proj1 (verifySecret_spec req)) in Hsecret.
  split.
  - intros Hfalsy rejected. subst rejected.
    rewrite !falsy_values_spec in Hfalsy.
    unfold api_transfer_ownership, api_transfer_ownership_v1, post.
    rewrite Hsecret.
    unfold transfer_ownership_handler, transfer_ownership_handler_v1.
    destruct Hfalsy as [-> | [-> | ->]]; cbn [negb orb];
      rewrite ?orb_true_r; split; reflexivity.
  - intros Hfalsy rejected. subst rejected.
    rewrite falsy_values_spec in Hfalsy.
    unfold api_join_channel, api_check_ownership, post.
    rewrite Hsecret.
    unfold join_channel_handler, check_ownership_handler.
    rewrite Hfalsy. split; reflexivity.
Qed.


(** ** What the membership gate returns *)

(** The gate never returns [joined: false]; and it returns
    [alreadyMember: false] exactly when the log of the run holds a join
    request that the platform accepted. *)
Theorem join_result_reflects_the_log
    (u : Json) (w : W) (joinResult : JoinResult) :
  let run := joinChannelIfNeeded P env u w in
  result run = inl joinResult ->
  joined joinResult = true
  /\ (alreadyMember joinResult = false <->
      exists channel, In (EJoinChannel channel (inl tt)) (calls run)).
Proof.
  unfold_run. run_cases; intros H; try discriminate H.
  all: injection H as <-; split; [reflexivity|]; split.
  all: try discriminate; try (intros _; eexists; simpl; eauto 10; fail).
  intros [c H]. in_log H.
Qed.

(** ** A listing with nothing to revoke *)

(** When every listed record is of the creator kind or carries the
    escrow's own identifier, the revoker edits nothing and returns the
    empty list. *)
Theorem nothing_to_revoke
    (u : Json) (w : W) (channel me : Entity) (ps : list Participant) :
  let run := removeAllOtherAdmins P env u w in
  In (EGetMe (inl me)) (calls run) ->
  In (EGetParticipants channel 0 200 (inl ps)) (calls run) ->
  (forall p, In p ps ->
     instanceof_Creator p = true \/ userId p = Some (id me)) ->
  absent is_EditAdmin (calls run) /\ result run = inl [].
Proof.
  intros run Hme Hlist Hskip. subst run.
  destruct (remove_shape u w) as
    [(h & c & m & l & w' & Hcalls & Hres) | [_ Hnolist]];
    cbv zeta in *; [|destruct (Hnolist _ _ _ _ Hlist)].
  pose proof (remove_loop_events c m l [] w') as Hev.
  destruct (remove_loop_spec c m l [] w') as (H1 & H2 & _). cbv zeta in *.
  set (L := calls (remove_loop P c m l [] w')) in *.
  rewrite Hcalls in Hme, Hlist.
  assert (Hm : me = m).
  { cbn [app] in Hme.
    repeat (destruct Hme as [Hme|Hme]; try discriminate Hme).
    - now injection Hme.
    - apply in_app_iff in Hme. destruct Hme as [Hme|Hme]; [|in_log Hme].
      destruct (Hev _ Hme) as (t & o & [=]). }
  assert (Hl : ps = l).
  { cbn [app] in Hlist.
    repeat (destruct Hlist as [Hlist|Hlist]; try discriminate Hlist).
    - now injection Hlist.
    - apply in_app_iff in Hlist.
      destruct Hlist as [Hlist|Hlist]; [|in_log Hlist].
      destruct (Hev _ Hlist) as (t & o & [=]). }
  subst me ps.
  assert (Hnone : filter (not_skipped m) l = []).
  { clear - Hskip. induction l as [|p l IH]; simpl; auto.
    assert (Hp : not_skipped m p = false).
    { unfold not_skipped. destruct (Hskip p (or_introl eq_refl)) as [-> | Hp].
      - reflexivity.
      - apply is_self_spec in Hp. rewrite Hp. apply andb_false_r. }
    rewrite Hp. apply IH. intros q Hq. apply Hskip. now right. }
  rewrite Hnone in H2. cbn [map] in H2.
  assert (HL : L = []).
  { destruct L as [|e L']; auto.
    destruct (Hev e (or_introl eq_refl)) as (t & o & ->). discriminate H2. }
  rewrite Hcalls, Hres, H1, HL. split; reflexivity.
Qed.

End Properties.

(** * The service on the small platform *)

Local Open Scope list_scope.

Definition shop1 : Entity := mkEntity 1001 (Some "Shop One").
Definition escrow_user : Entity := mkEntity 42 None.



(** C3 on channels where escrow is creator, administrator and member. *)
Lemma classifier_follows_record_kind_witness :
  (exists ownershipCheck,
      result (checkChannelOwnership toy toy_env (JStr "@shop1") owned)
        = inl ownershipCheck
      /\ (isOwner ownershipCheck = true <->
          exists uid, ChannelParticipantCreator 42 = ChannelParticipantCreator uid)
      /\ currentRole ownershipCheck = "creator")
  /\ (exists ownershipCheck,
      result (checkChannelOwnership toy toy_env (JStr "@shop1") administered)
        = inl ownershipCheck
      /\ (isOwner ownershipCheck = true <->
          exists uid, ChannelParticipantAdmin 42 = ChannelParticipantCreator uid)
      /\ currentRole ownershipCheck = "admin")
  /\ (exists ownershipCheck,
      result (checkChannelOwnership toy toy_env (JStr "@shop1") member)
        = inl ownershipCheck
      /\ (isOwner ownershipCheck = true <->
          exists uid, ChannelParticipant 42 = ChannelParticipantCreator uid)
      /\ currentRole ownershipCheck = "member").
Proof.
  split; [|split].
  - apply (proj1 (classifier_follows_record_kind Toy toy toy_env
                    (JStr "@shop1") owned)
             shop1 escrow_user (ChannelParticipantCreator 42)).
    vm_compute. do 3 right. left. reflexivity.
  - apply (proj1 (classifier_follows_record_kind Toy toy toy_env
                    (JStr "@shop1") administered)
             shop1 escrow_user (ChannelParticipantAdmin 42)).
    vm_compute. do 3 right. left. reflexivity.
  - apply (proj1 (classifier_follows_record_kind Toy toy toy_env
                    (JStr "@shop1") member)
             shop1 escrow_user (ChannelParticipant 42)).
    vm_compute. do 3 right. left. reflexivity.
Defined.

(** C9 on a channel that banned escrow. *)
Lemma classifier_role_witness :
  let run := checkChannelOwnership toy toy_env (JStr "@shop1") banned in
  result run
    = inl (mkCheck false "member" "VirtualClass" "1001"
                   (Some "Shop One"))
  /\ In "member" ["creator"; "admin"; "member"]
  /\ "member" <> "unknown".
Proof.
  split; [reflexivity|].
  destruct (classifier_role_is_one_of_three Toy toy toy_env (JStr "@shop1")
              banned _ eq_refl) as (H1 & H2 & _).
  split; [exact H1 | exact H2].
Defined.

(** C4 as stated fails: on a channel escrow has not joined, the lookup
    fails with the sentinel and the classifier throws it; no role is
    returned. *)
Lemma classifier_throws_for_outsider :
  let run := checkChannelOwnership toy toy_env (JStr "@shop1") outside in
  In (EGetParticipant shop1 escrow_user
        (inr (rpc_error "USER_NOT_PARTICIPANT"))) (calls run)
  /\ is_not_participant (rpc_error "USER_NOT_PARTICIPANT") = true
  /\ result run = inr (rpc_error "USER_NOT_PARTICIPANT")
  /\ ~ (exists ownershipCheck, result run = inl ownershipCheck).
Proof.
  cbv zeta. split; [|split; [|split]].
  - vm_compute. do 3 right. left. reflexivity.
  - reflexivity.
  - reflexivity.
  - intros [oc H]. vm_compute in H. discriminate H.
Qed.

(** C4, amended, on the same channel. *)
Lemma classifier_raises_lookup_error_witness :
  result (checkChannelOwnership toy toy_env (JStr "@shop1") outside)
    = inr (rpc_error "USER_NOT_PARTICIPANT")
  /\ result (api_check_ownership toy toy_env ownership_query outside) =
       inl (mkResponse 500
              (JObj [("error", JStr "USER_NOT_PARTICIPANT");
                     ("isOwner", JBool false);
                     ("currentRole", JStr "error: USER_NOT_PARTICIPANT")])).
Proof.
  assert (Hin : In (EGetParticipant shop1 escrow_user
                      (inr (rpc_error "USER_NOT_PARTICIPANT")))
                   (calls (checkChannelOwnership toy toy_env
                             (field "channelUsername" (body ownership_query))
                             outside))).
  { vm_compute. do 3 right. left. reflexivity. }
  destruct (classifier_raises_lookup_error Toy toy toy_env ownership_query
              outside shop1 escrow_user _ Hin) as [Hres Hroute].
  split; [exact Hres | exact (Hroute eq_refl eq_refl)].
Defined.

(** C6 as stated fails: escrow is not a participant, the one join request
    it issues is rejected, and the gate throws instead of returning. *)
Lemma join_rejected_for_outsider :
  let run := joinChannelIfNeeded toy toy_env (JStr "@shop1") shut_out in
  In (EGetParticipant shop1 escrow_user
        (inr (rpc_error "USER_NOT_PARTICIPANT"))) (calls run)
  /\ filter is_JoinChannel (calls run)
       = [EJoinChannel shop1 (inr (rpc_error "CHANNELS_TOO_MUCH"))]
  /\ result run = inr (rpc_error "CHANNELS_TOO_MUCH")
  /\ result run <> inl (mkJoin true false).
Proof.
  cbv zeta. split; [|split; [|split]].
  - vm_compute. do 3 right. left. reflexivity.
  - reflexivity.
  - reflexivity.
  - intros H. vm_compute in H. discriminate H.
Qed.

(** C6, amended: a channel escrow has not joined and may join, a channel
    where it is a member, and a channel that no handle resolves to. *)
Lemma join_if_needed_dispatch_witness :
  (let run := joinChannelIfNeeded toy toy_env (JStr "@shop1") outside in
   exists outcome,
     filter is_JoinChannel (calls run) = [EJoinChannel shop1 outcome]
     /\ result run =
          match outcome with
          | inl _ => inl (mkJoin true false)
          | inr rejected => inr rejected
          end)
  /\ (let run := joinChannelIfNeeded toy toy_env (JStr "@shop1") member in
      filter is_JoinChannel (calls run) = []
      /\ result run = inl (mkJoin true true)).
Proof.
  split.
  - apply (proj1 (join_if_needed_dispatch Toy toy toy_env (JStr "@shop1")
                    outside)
             shop1 escrow_user (rpc_error "USER_NOT_PARTICIPANT")).
    + vm_compute. do 3 right. left. reflexivity.
    + reflexivity.
  - apply (proj1 (proj2 (join_if_needed_dispatch Toy toy toy_env
                           (JStr "@shop1") member))
             shop1 escrow_user (ChannelParticipant 42)).
    vm_compute. do 3 right. left. reflexivity.
Defined.

(** C5 on a listing with the creator, a stubborn administrator, the escrow
    itself listed as administrator, and one more administrator. *)
Lemma revoke_other_admins_witness :
  let run := removeAllOtherAdmins toy toy_env (JStr "@shop1") stubborn_admin in
  edit_targets (calls run) = [Some 5%Z; Some 6%Z]
  /\ result run = inl ["6"]
  /\ (let run := removeAllOtherAdmins toy toy_env (JStr "@shop1") owned in
      edits_succeed (calls run) = true
      /\ result run = inl ["5"; "6"]).
Proof.
  cbv zeta. split; [|split; [|split]].
  - exact (proj1 (proj2 (revoke_other_admins Toy toy toy_env (JStr "@shop1")
                           stubborn_admin)
                    shop1 escrow_user (listed stubborn_admin)
                    ltac:(vm_compute; do 2 right; left; reflexivity)
                    ltac:(vm_compute; do 3 right; left; reflexivity))).
  - exact (proj1 (proj2 (proj2 (revoke_other_admins Toy toy toy_env
                                  (JStr "@shop1") stubborn_admin)
                           shop1 escrow_user (listed stubborn_admin)
                           ltac:(vm_compute; do 2 right; left; reflexivity)
                           ltac:(vm_compute; do 3 right; left; reflexivity)))).
  - reflexivity.
  - exact (proj1 (proj2 (proj2 (proj2 (revoke_other_admins Toy toy toy_env
                                         (JStr "@shop1") owned)
                                  shop1 escrow_user (listed owned)
                                  ltac:(vm_compute; do 2 right; left;
                                        reflexivity)
                                  ltac:(vm_compute; do 3 right; left;
                                        reflexivity)))
                    eq_refl)).
Defined.


(** C8 as stated fails: a POST request with the wrong secret whose body
    does not parse is answered 500 by the error middleware, not 401. *)
Lemma garbled_body_behind_wrong_secret :
  let run := served (api_transfer_ownership toy toy_env) garbled_request
               owned in
  http_x_api_secret garbled_request <> Some (API_SECRET toy_env)
  /\ result run =
       inl (mkResponse 500
              (JObj [("error", JStr "Internal server error");
                     ("message",
                      JStr "Unexpected token } in JSON at position 12")]))
  /\ forall answer, result run <> inl (mkResponse 401 answer).
Proof.
  cbv zeta. split; [discriminate|]. split; [reflexivity|].
  intros answer H. vm_compute in H. discriminate H.
Qed.

(** C8, amended: a request whose body does not parse, a request with the
    wrong secret, and an authenticated request without a buyer. *)
Lemma validation_and_auth_witness :
  served (api_transfer_ownership toy toy_env) garbled_request owned =
    mkRun
      (inl (mkResponse 500
         (JObj [("error", JStr "Internal server error");
                ("message",
                 JStr "Unexpected token } in JSON at position 12")])))
      owned []
  /\ served (api_transfer_ownership toy toy_env) (arriving stray_request)
       owned =
       mkRun (inl (mkResponse 401 (JObj [("error", JStr "Unauthorized")])))
             owned []
  /\ served (api_transfer_ownership toy toy_env) (arriving short_request)
       owned =
       mkRun
         (inl (mkResponse 400
            (JObj [("error",
                    JStr "jobId, channelUsername, and buyerUsername are required")])))
         owned [].
Proof.
  split; [|split].
  - apply (proj1 (validation_and_auth_short_circuit Toy toy toy_env
                    garbled_request owned)
             (mkError None "Unexpected token } in JSON at position 12"
                "SyntaxError: Unexpected token } in JSON at position 12")).
    reflexivity.
  - apply (proj1 (proj2 (validation_and_auth_short_circuit Toy toy toy_env
                           (arriving stray_request) owned))
             (body stray_request)).
    + reflexivity.
    + discriminate.
  - apply (proj2 (proj2 (validation_and_auth_short_circuit Toy toy toy_env
                           (arriving short_request) owned))
             (body short_request)).
    + reflexivity.
    + reflexivity.
    + right. right. reflexivity.
Defined.


(** ** Further runs on the small platform *)

(** Without a session string, on a channel escrow owns. *)
Lemma no_session_string_witness :
  result (checkChannelOwnership toy env_without_session (JStr "@shop1") owned)
    = inr (TypeError "Cannot read properties of undefined (reading 'trim')")
  /\ calls (transferChannelOwnership toy env_without_session
              (JStr "@shop1") (JStr "@buyer") owned) = [].
Proof.
  destruct (no_session_string_no_call Toy toy env_without_session
              (JStr "@shop1") (JStr "@buyer") owned eq_refl)
    as (_ & Hc & _ & Ht & _).
  split; [now rewrite Hc | now rewrite Ht].
Defined.

(** The handles "@shop1" and "shop1", "@buyer" and "buyer". *)
Lemma sigil_is_optional_witness :
  checkChannelOwnership toy toy_env (JStr "@shop1") owned
    = checkChannelOwnership toy toy_env (JStr "shop1") owned
  /\ transferChannelOwnership toy toy_env (JStr "@shop1") (JStr "@buyer") owned
       = transferChannelOwnership toy toy_env (JStr "shop1") (JStr "buyer")
           owned.
Proof.
  destruct (sigil_is_optional Toy toy toy_env "shop1" "buyer" owned
              ltac:(discriminate) ltac:(discriminate))
    as (_ & Hc & _ & _ & Ht).
  split; [exact Hc | exact Ht].
Defined.

(** A channel given as the number 1001, with the client constructed and
    with an environment that lacks the API id. *)
Lemma non_string_username_witness :
  calls (joinChannelIfNeeded toy toy_env (JNum 1001) owned)
    = [EConnect (inl tt); EDisconnect]
  /\ (exists e, result (joinChannelIfNeeded toy toy_env (JNum 1001) owned)
                = inr e
                /\ errorMessage e = None)
  /\ calls (joinChannelIfNeeded toy env_without_api_id (JNum 1001) owned)
       = [].
Proof.
  destruct (non_string_username_only_connects Toy toy toy_env
              (JNum 1001) (JStr "@buyer") owned ltac:(discriminate))
    as ((Hcalls & e & Hres & Herr) & _).
  destruct (non_string_username_only_connects Toy toy env_without_api_id
              (JNum 1001) (JStr "@buyer") owned ltac:(discriminate))
    as ((Hnone & _) & _).
  split; [exact Hcalls|]. split; [|exact Hnone].
  exists e. split; [exact Hres | exact (Herr eq_refl eq_refl)].
Defined.

(** The handoff on a channel escrow owns. *)
Lemma handoff_uses_fresh_proof_witness :
  let run := transferChannelOwnership toy toy_env (JStr "@shop1")
               (JStr "@buyer") owned in
  filter is_EditCreator (calls run)
    = [EEditCreator shop1 (mkEntity 77 None) (InputCheckPasswordSRP 8)
         (inl tt)]
  /\ result run = inl tt
  /\ In (EComputeCheck (Srp 7) (Some "hunter2")
           (inl (InputCheckPasswordSRP 8))) (calls run).
Proof.
  destruct (handoff_uses_fresh_proof Toy toy toy_env (JStr "@shop1")
              (JStr "@buyer") owned shop1 (mkEntity 77 None)
              (InputCheckPasswordSRP 8) (inl tt)
              ltac:(vm_compute; do 5 right; left; reflexivity))
    as (Hone & Hres & _).
  split; [exact Hone|]. split; [exact Hres|].
  vm_compute. do 4 right. left. reflexivity.
Defined.

(** The handoff without the two-factor password. *)
Lemma handoff_needs_every_step_witness :
  let run := transferChannelOwnership toy env_without_password
               (JStr "@shop1") (JStr "@buyer") owned in
  absent is_EditCreator (calls run)
  /\ exists e, result run = inr e.
Proof.
  apply (handoff_needs_every_step Toy toy env_without_password
           (JStr "@shop1") (JStr "@buyer") owned).
  do 3 right. exists (Srp 7), None, (mkError None "Password is required" "Error").
  vm_compute. do 4 right. left. reflexivity.
Defined.

(** Leaving a channel, and a channel that cannot be left. *)
Lemma leave_follows_the_platform_witness :
  result (leaveChannel toy toy_env (JStr "@shop1") owned)
    = inl (mkLeave true)
  /\ result (leaveChannel sticky toy_env (JStr "@shop1") owned)
       = inr (rpc_error "CHANNEL_PRIVATE").
Proof.
  split.
  - exact (proj2 (proj1 (leave_follows_the_platform Toy toy toy_env
                           (JStr "@shop1") owned)
                    shop1 (inl tt)
                    ltac:(vm_compute; do 2 right; left; reflexivity))).
  - exact (proj2 (proj1 (leave_follows_the_platform Toy sticky toy_env
                           (JStr "@shop1") owned)
                    shop1 (inr (rpc_error "CHANNEL_PRIVATE"))
                    ltac:(vm_compute; do 2 right; left; reflexivity))).
Defined.

(** The classifier on a channel where escrow is a member. *)
Lemma classifier_result_witness :
  (false = true <-> "member" = "creator")
  /\ "VirtualClass" = "VirtualClass"
  /\ exists handle channel me participant,
       In (EGetEntity handle (inl channel))
          (calls (checkChannelOwnership toy toy_env (JStr "@shop1") member))
       /\ In (EGetParticipant channel me (inl participant))
            (calls (checkChannelOwnership toy toy_env (JStr "@shop1") member))
       /\ "1001" = toString (id channel)
       /\ Some "Shop One" = title channel.
Proof.
  exact (classifier_result_is_coherent Toy toy toy_env (JStr "@shop1") member
           (mkCheck false "member" "VirtualClass" "1001" (Some "Shop One"))
           eq_refl).
Defined.

(** The revoker on a listing with a stubborn administrator. *)
Lemma revoker_returns_listed_admins_witness :
  exists channel me ps,
    In (EGetMe (inl me))
       (calls (removeAllOtherAdmins toy toy_env (JStr "@shop1")
                 stubborn_admin))
    /\ In (EGetParticipants channel 0 200 (inl ps))
         (calls (removeAllOtherAdmins toy toy_env (JStr "@shop1")
                   stubborn_admin))
    /\ (List.length ["6"] <= List.length ps)%nat
    /\ forall s, In s ["6"] ->
         exists p k, In p ps /\ userId p = Some k /\ s = toString k
                     /\ instanceof_Creator p = false /\ k <> id me.
Proof.
  exact (revoker_returns_listed_admins Toy toy toy_env (JStr "@shop1")
           stubborn_admin ["6"] eq_refl).
Defined.

(** The gate without a configured secret, and with an empty one. *)
Lemma gate_accepts_the_configured_secret_witness :
  verifySecret env_without_secret placeholder_request = None
  /\ verifySecret env_with_empty_secret placeholder_request = None
  /\ verifySecret toy_env anonymous_request <> None
  /\ verifySecret toy_env good_request = None.
Proof.
  split; [|split; [|split]].
  - apply (proj1 (proj2 (gate_accepts_the_configured_secret
                           env_without_secret placeholder_request))).
    + left. reflexivity.
    + reflexivity.
  - apply (proj1 (proj2 (gate_accepts_the_configured_secret
                           env_with_empty_secret placeholder_request))).
    + right. reflexivity.
    + reflexivity.
  - apply (proj1 (gate_accepts_the_configured_secret toy_env
                    anonymous_request)).
    reflexivity.
  - apply (proj2 (proj2 (gate_accepts_the_configured_secret toy_env
                           good_request)) "s3cret").
    + reflexivity.
    + discriminate.
    + reflexivity.
Defined.

(** The first rights-edit of a complete transfer. *)
Lemma transfer_mutates_only_as_creator_witness :
  exists channel me uid,
    In (EGetParticipant channel me (inl (ChannelParticipantCreator uid)))
       (firstn 14 (calls (api_transfer_ownership toy toy_env good_request
                            owned))).
Proof.
  apply (transfer_mutates_only_as_creator Toy toy toy_env good_request owned
           (firstn 14 (calls (api_transfer_ownership toy toy_env
                                good_request owned)))
           (skipn 15 (calls (api_transfer_ownership toy toy_env
                               good_request owned)))
           (EEditAdmin shop1 (Some 5%Z) noRights "" (inl tt))).
  - reflexivity.
  - reflexivity.
Defined.

(** The job update of a complete three-step transfer. *)
Lemma transfer_v1_order_witness :
  exists channel buyer password,
    In (EEditCreator channel buyer password (inl tt))
       (firstn 12 (calls (api_transfer_ownership_v1 toy toy_env good_request
                            owned))).
Proof.
  apply (proj2 (transfer_v1_order Toy toy toy_env good_request owned
                  (firstn 12 (calls (api_transfer_ownership_v1 toy toy_env
                                       good_request owned)))
                  (skipn 13 (calls (api_transfer_ownership_v1 toy toy_env
                                      good_request owned)))
                  (EJobsUpdate (JStr "job-1") "2024-01-01T00:00:00.000Z"
                     (mkReply JNull JNull))
                  eq_refl)).
  reflexivity.
Defined.




(** A job identifier of zero, and a request without a channel. *)
Lemma falsy_fields_witness :
  result (api_transfer_ownership toy toy_env zero_job_request owned)
    = inl (mkResponse 400
             (JObj [("error",
                     JStr "jobId, channelUsername, and buyerUsername are required")]))
  /\ result (api_join_channel toy toy_env empty_request owned)
       = inl (mkResponse 400
                (JObj [("error", JStr "channelUsername is required")])).
Proof.
  destruct (falsy_fields_count_as_missing Toy toy toy_env zero_job_request
              owned eq_refl) as [Htransfer _].
  destruct (falsy_fields_count_as_missing Toy toy toy_env empty_request
              owned eq_refl) as [_ Hjoin].
  split.
  - destruct Htransfer as [H _].
    + left. simpl. auto 10.
    + now rewrite H.
  - destruct Hjoin as [H _].
    + simpl. auto.
    + now rewrite H.
Defined.


(** The gate on a channel escrow has not joined. *)
Lemma join_result_witness :
  joined (mkJoin true false) = true
  /\ (alreadyMember (mkJoin true false) = false <->
      exists channel,
        In (EJoinChannel channel (inl tt))
           (calls (joinChannelIfNeeded toy toy_env (JStr "@shop1") outside))).
Proof.
  exact (join_result_reflects_the_log Toy toy toy_env (JStr "@shop1") outside
           (mkJoin true false) eq_refl).
Defined.

(** The revoker on a listing that holds the creator only. *)
Lemma nothing_to_revoke_witness :
  let run := removeAllOtherAdmins toy toy_env (JStr "@shop1") ledger_down in
  absent is_EditAdmin (calls run) /\ result run = inl [].
Proof.
  apply (nothing_to_revoke Toy toy toy_env (JStr "@shop1") ledger_down
           shop1 escrow_user [ChannelParticipantCreator 42]).
  - vm_compute. do 2 right. left. reflexivity.
  - vm_compute. do 3 right. left. reflexivity.
  - intros p [<- | []]. left. reflexivity.
Defined.
